(** * livekit-cli: the looping VP8/VP9 sample provider and the load-test command

    A shallow embedding of

    - [pkg/provider/vp8looper.go]: [VPVideoLooper], a sample provider that
      replays one in-memory IVF clip for ever, and
    - [cmd/lk/loadtest.go]: the [load-test] command, which turns the parsed
      command line into [loadtester.Params] and starts a run or the suite,

    followed by the properties of both that the specification states.

    Conventions.  Go's [int], [int64] and [time.Duration] are 64-bit signed
    integers and are carried as [Z] (wrap-around is written out where the
    source does arithmetic); [uint64] is a [Z] reduced modulo [2^64];
    [[]byte] is [list byte] (a nil slice is the empty list).  A Go function
    that updates its receiver returns the updated receiver next to its
    results. *)

From Equations Require Import Equations.
From Stdlib Require Import ZArith QArith List String Bool Lia Arith.
From Stdlib.Strings Require Import Byte.
Import ListNotations.
Local Open Scope Z_scope.

(** ** Go values shared by both packages *)

(** The [error] values that can reach the code under study.  [io_EOF] is the
    sentinel [io.EOF]; the [err...] constructors are the sentinels of the IVF
    reader; [errorString] is an error made by [fmt.Errorf] or [errors.New]. *)
Inductive error : Type :=
| io_EOF
| io_ErrUnexpectedEOF
| errIncompleteFrameHeader
| errIncompleteFrameData
| errIncompleteFileHeader
| errSignatureMismatch
| errUnknownIVFVersion (got : Z)
| errorString (msg : string).

(** [err == io.EOF] *)
Definition is_EOF (e : error) : bool :=
  match e with io_EOF => true | _ => false end.

Inductive result (A : Type) : Type :=
| Ok (a : A)
| Err (e : error).
Arguments Ok {A} a.
Arguments Err {A} e.

(** A call either returns or panics (integer division by zero). *)
Inductive outcome (A : Type) : Type :=
| Returns (a : A)
| Panics (msg : string).
Arguments Returns {A} a.
Arguments Panics {A} msg.

Definition wrap_uint64 (z : Z) : Z := z mod 2 ^ 64.
Definition wrap_int64 (z : Z) : Z := (z + 2 ^ 63) mod 2 ^ 64 - 2 ^ 63.

(** [time.Duration] constants, in nanoseconds. *)
Definition time_Millisecond : Z := 1000000.
Definition time_Second : Z := 1000000000.

(** ** Interfaces of the code outside the two files *)

(** [float64] arithmetic.  The looper uses it for one value only, the
    duration it derives from the clip's own timing; its operations are kept
    abstract. *)
Class Float64Ops : Type := {
  float64 : Type;
  f64_zero : float64;
  (** [float64(x)] for an unsigned integer [x] *)
  f64_of_uint : Z -> float64;
  f64_div : float64 -> float64 -> float64;
  f64_mul : float64 -> float64 -> float64;
  (** [time.Duration(f)]: conversion of a float to [int64] *)
  f64_to_int64 : float64 -> Z
}.

(** [ivfreader.IVFFileHeader], exported fields *)
Record IVFFileHeader : Type := {
  FourCC : list byte;
  Width : Z;
  Height : Z;
  TimebaseDenominator : Z;
  TimebaseNumerator : Z;
  NumFrames : Z
}.

(** [ivfreader.IVFFrameHeader] *)
Record IVFFrameHeader : Type := {
  FrameSize : Z;
  Timestamp : Z
}.

(** The part of [github.com/pion/webrtc/v4/pkg/media/ivfreader] the looper
    calls.  [NewWith buf] stands for [ivfreader.NewWith(bytes.NewReader(buf))];
    [ParseNextFrame r] returns what the Go method returns together with the
    reader after the call. *)
Class IVFReaderAPI : Type := {
  IVFReader : Type;
  NewWith : list byte -> result (IVFReader * IVFFileHeader);
  ParseNextFrame : IVFReader -> result (list byte * IVFFrameHeader) * IVFReader
}.

(** * Package provider *)

(** Modelled from the spec: the declaration of [videoSpec] is in a file of the
    package that is not among the sources; the spec describes it as a
    (width, height, target-bitrate, frame-rate, quality-tier) tuple.  The
    looper reads [fps] only. *)
Record videoSpec : Type := {
  width : Z;
  height : Z;
  kbps : Z;
  fps : Z;
  quality : Z
}.

(** [media.Sample]; the looper sets [Data] and [Duration] and leaves every
    other field at its zero value. *)
Record Sample : Type := {
  Data : list byte;
  Duration : Z
}.

Definition Sample_zero : Sample := {| Data := []; Duration := 0 |}.

Section Looper.
Context {F : Float64Ops} {R : IVFReaderAPI}.

Record VPVideoLooper : Type := {
  buffer : list byte;
  frameDuration : Z;
  spec : videoSpec;
  reader : option IVFReader;
  ivfTimebase : float64;
  lastTimestamp : Z;
  isVp9Encoding : bool
}.

Definition set_reader (l : VPVideoLooper) (r : option IVFReader) : VPVideoLooper :=
  {| buffer := buffer l; frameDuration := frameDuration l; spec := spec l;
     reader := r; ivfTimebase := ivfTimebase l;
     lastTimestamp := lastTimestamp l; isVp9Encoding := isVp9Encoding l |}.

Definition set_ivfTimebase (l : VPVideoLooper) (t : float64) : VPVideoLooper :=
  {| buffer := buffer l; frameDuration := frameDuration l; spec := spec l;
     reader := reader l; ivfTimebase := t;
     lastTimestamp := lastTimestamp l; isVp9Encoding := isVp9Encoding l |}.

Definition set_lastTimestamp (l : VPVideoLooper) (t : Z) : VPVideoLooper :=
  {| buffer := buffer l; frameDuration := frameDuration l; spec := spec l;
     reader := reader l; ivfTimebase := ivfTimebase l;
     lastTimestamp := t; isVp9Encoding := isVp9Encoding l |}.

(** [NewVPVideoLooper(input, spec, isVp9Encoding)].  [input] is what draining
    the [io.Reader] with [io.Copy] gives: all its bytes, or the error.  The
    struct literal is evaluated first, so a zero [fps] panics there. *)
Definition NewVPVideoLooper (input : result (list byte)) (sp : videoSpec)
    (vp9 : bool) : outcome (result VPVideoLooper) :=
  if fps sp =? 0 then Panics "integer divide by zero"
  else
    let l := {| buffer := []; frameDuration := Z.quot time_Second (fps sp);
                spec := sp; reader := None; ivfTimebase := f64_zero;
                lastTimestamp := 0; isVp9Encoding := vp9 |} in
    match input with
    | Err e => Returns (Err e)
    | Ok bytes =>
        Returns (Ok {| buffer := bytes; frameDuration := frameDuration l;
                       spec := spec l; reader := reader l;
                       ivfTimebase := ivfTimebase l;
                       lastTimestamp := lastTimestamp l;
                       isVp9Encoding := isVp9Encoding l |})
    end.

(** What a call of [nextSample] leaves behind: the two results, the receiver
    after the call, and the number of activations of [nextSample] the call
    used (itself included), which is its call depth. *)
Record Pulled : Type := {
  sample : Sample;
  err : option error;
  self : VPVideoLooper;
  depth : nat
}.

(** Lines 84-93: open the clip when no reader is held.  Gives the reader to
    parse from and the receiver after the block, or the error of [NewWith]
    (then [l.reader] has been assigned nil). *)
Definition openIfNil (l : VPVideoLooper) : result (IVFReader * VPVideoLooper) :=
  match reader l with
  | Some r => Ok (r, l)
  | None =>
      match NewWith (buffer l) with
      | Err e => Err e
      | Ok (r, ivfheader) =>
          Ok (r, set_ivfTimebase (set_reader l (Some r))
                   (f64_div (f64_of_uint (TimebaseNumerator ivfheader))
                            (f64_of_uint (TimebaseDenominator ivfheader))))
      end
  end.

(** Line 106, the duration from the clip's own timing:
    [time.Duration(l.ivfTimebase*float64(delta)*1000) * time.Millisecond]. *)
Definition nativeDuration (tb : float64) (delta : Z) : Z :=
  wrap_int64
    (f64_to_int64 (f64_mul (f64_mul tb (f64_of_uint delta)) (f64_of_uint 1000))
     * time_Millisecond).

(** Lines 103-109, after a frame was parsed; [l] already holds the advanced
    reader. *)
Definition deliver (l : VPVideoLooper) (frame : list byte)
    (header : IVFFrameHeader) : Pulled :=
  let delta := wrap_uint64 (Timestamp header - lastTimestamp l) in
  let sample1 := {| Data := frame; Duration := Duration Sample_zero |} in
  let sample2 := {| Data := Data sample1;
                    Duration := nativeDuration (ivfTimebase l) delta |} in
  let l' := set_lastTimestamp l (Timestamp header) in
  let sample3 := {| Data := Data sample2; Duration := frameDuration l' |} in
  {| sample := sample3; err := None; self := l'; depth := 1 |}.

(** [return sample, err] with the zero sample *)
Definition failWith (l : VPVideoLooper) (e : error) : Pulled :=
  {| sample := Sample_zero; err := Some e; self := l; depth := 1 |}.

(** One more activation on top of a nested call *)
Definition nested (p : Pulled) : Pulled :=
  {| sample := sample p; err := err p; self := self p; depth := S (depth p) |}.

Equations nextSample (rewindEOF : bool) (l : VPVideoLooper) : Pulled
  by wf (Nat.b2n rewindEOF) lt :=
nextSample rewindEOF l with openIfNil l => {
  | Err e := failWith l e;
  | Ok (r, l1) with ParseNextFrame r => {
    | (Err e, r') with is_EOF e, rewindEOF => {
      | true, true := nested (nextSample false (set_reader l1 None));
      | _, _ := failWith (set_reader l1 (Some r')) e };
    | (Ok (frame, header), r') :=
        deliver (set_reader l1 (Some r')) frame header } }.

(** [NextSample(ctx)] *)
Definition NextSample (l : VPVideoLooper) : Pulled := nextSample true l.

(** The receiver after [n] consecutive calls of [NextSample] *)
Fixpoint pulls (n : nat) (l : VPVideoLooper) : VPVideoLooper :=
  match n with
  | O => l
  | S n' => self (NextSample (pulls n' l))
  end.

(** The call of [NextSample] number [i], counting from 0 *)
Definition pull (i : nat) (l : VPVideoLooper) : Pulled := NextSample (pulls i l).

(** From reader [r] on, [ParseNextFrame] yields exactly the frames [fs], in
    order, and then [io.EOF]. *)
Inductive ReadsFrames : IVFReader -> list (list byte * IVFFrameHeader) -> Prop :=
| reads_eof r r' :
    ParseNextFrame r = (Err io_EOF, r') -> ReadsFrames r []
| reads_frame r r' frame header fs :
    ParseNextFrame r = (Ok (frame, header), r') ->
    ReadsFrames r' fs ->
    ReadsFrames r ((frame, header) :: fs).

(** [bytes] is a clip with file header [h] and frames [fs]. *)
Definition ClipOf (bytes : list byte) (h : IVFFileHeader)
    (fs : list (list byte * IVFFrameHeader)) : Prop :=
  exists r0, NewWith bytes = Ok (r0, h) /\ ReadsFrames r0 fs.

(** A reader that has reported [io.EOF] reports it again on the next call. *)
Definition EOFPersists : Prop :=
  forall r r', ParseNextFrame r = (Err io_EOF, r') ->
    exists r'', ParseNextFrame r' = (Err io_EOF, r'').

(** The timebase [nextSample] stores when it opens a clip with header [h] *)
Definition timebaseOf (h : IVFFileHeader) : float64 :=
  f64_div (f64_of_uint (TimebaseNumerator h)) (f64_of_uint (TimebaseDenominator h)).

(** [l'] agrees with [l] on the fields the constructor sets and no method
    assigns. *)
Definition sameClip (l l' : VPVideoLooper) : Prop :=
  buffer l' = buffer l /\ frameDuration l' = frameDuration l
  /\ spec l' = spec l /\ isVp9Encoding l' = isVp9Encoding l.

(** The receiver right after it returned frame number [j] of the clip
    [(h, fs)]: it holds a reader placed behind that frame, the frame's
    timestamp and the clip's timebase. *)
Definition JustReturned (h : IVFFileHeader) (fs : list (list byte * IVFFrameHeader))
    (j : nat) (l : VPVideoLooper) : Prop :=
  exists r before x rest,
    fs = before ++ x :: rest /\ List.length before = j
    /\ reader l = Some r /\ ReadsFrames r rest
    /\ lastTimestamp l = Timestamp (snd x)
    /\ ivfTimebase l = timebaseOf h.

(** [webrtc.RTCPFeedback] and [webrtc.RTPCodecCapability]; [Codec] fills in
    the three fields below and leaves [Channels] and [SDPFmtpLine] at their
    zero values. *)
Record RTCPFeedback : Type := {
  FBType : string;
  FBParameter : string
}.

Record RTPCodecCapability : Type := {
  MimeType : string;
  ClockRate : Z;
  RTCPFeedbacks : list RTCPFeedback
}.

(** The constant [webrtc.TypeRTCPFBNACK] *)
Definition TypeRTCPFBNACK : string := "nack".

(** [l.Codec()] *)
Definition Codec (l : VPVideoLooper) : RTPCodecCapability :=
  let encoding := "vp9"%string in
  let encoding := if negb (isVp9Encoding l) then "vp8"%string else encoding in
  {| MimeType := "video/" ++ encoding;
     ClockRate := 90000;
     RTCPFeedbacks :=
       [ {| FBType := TypeRTCPFBNACK; FBParameter := EmptyString |};
         {| FBType := TypeRTCPFBNACK; FBParameter := "pli" |} ] |}.

(** From reader [r] on, [ParseNextFrame] yields the frames [fs], in order,
    and then the error [e], leaving the reader [r']. *)
Inductive ReadsThenFails :
    IVFReader -> list (list byte * IVFFrameHeader) -> error -> IVFReader -> Prop :=
| fails_now r e r' :
    ParseNextFrame r = (Err e, r') -> ReadsThenFails r [] e r'
| fails_later r r1 frame header fs e r' :
    ParseNextFrame r = (Ok (frame, header), r1) ->
    ReadsThenFails r1 fs e r' ->
    ReadsThenFails r ((frame, header) :: fs) e r'.

End Looper.

(** * Package main: the load-test command *)

(** [loadtester.Layout] and [loadtester.LayoutFromString], from a package of
    the repository that is not among the sources; kept abstract. *)
Class LayoutAPI : Type := {
  Layout : Type;
  LayoutFromString : string -> Layout
}.

(** The connection details [loadProjectDetails] resolves; [loadTest] reads
    these three fields. *)
Record ProjectConfig : Type := {
  pc_URL : string;
  pc_APIKey : string;
  pc_APISecret : string
}.

Section LoadTestCommand.
Context {F : Float64Ops} {LA : LayoutAPI}.

(** The value of a command-line flag, by flag kind *)
Inductive flagValue : Type :=
| IntValue (z : Z)
| StringValue (s : string)
| DurationValue (d : Z)
| FloatValue (f : float64)
| BoolValue (b : bool).

(** A flag declaration: [Value] is the default, the zero value of the kind
    where the source gives none.  The [Usage] texts are left out. *)
Record Flag : Type := {
  Name : string;
  Aliases : list string;
  Value : flagValue;
  Hidden : bool
}.

Definition IntFlag (name : string) (value : Z) : Flag :=
  {| Name := name; Aliases := []; Value := IntValue value; Hidden := false |}.
Definition StringFlag (name : string) (value : string) : Flag :=
  {| Name := name; Aliases := []; Value := StringValue value; Hidden := false |}.
Definition BoolFlag (name : string) (value : bool) : Flag :=
  {| Name := name; Aliases := []; Value := BoolValue value; Hidden := false |}.

(** [LoadTestCommands[0].Flags] *)
Definition LoadTestFlags : list Flag :=
  [ IntFlag "room-count" 1;
    StringFlag "room" "load-test";
    {| Name := "duration"; Aliases := []; Value := DurationValue 0; Hidden := false |};
    {| Name := "video-publishers"; Aliases := ["publishers"%string];
       Value := IntValue 0; Hidden := false |};
    IntFlag "audio-publishers" 0;
    IntFlag "subscribers" 0;
    StringFlag "identity-prefix" EmptyString;
    StringFlag "video-resolution" "high";
    IntFlag "fairproc-config-web-width" (-1);
    IntFlag "fairproc-config-web-height" (-1);
    IntFlag "fairproc-config-web-bitrate" (-1);
    IntFlag "fairproc-config-screen-width" (-1);
    IntFlag "fairproc-config-screen-height" (-1);
    IntFlag "fairproc-config-screen-bitrate" (-1);
    IntFlag "fairproc-config-audio-bitrate" 16;
    BoolFlag "fairproc-rooms" false;
    StringFlag "video-codec" EmptyString;
    {| Name := "num-per-second"; Aliases := []; Value := FloatValue (f64_of_uint 5);
       Hidden := false |};
    StringFlag "layout" "speaker";
    BoolFlag "no-simulcast" false;
    BoolFlag "simulate-speakers" false;
    {| Name := "run-all"; Aliases := []; Value := BoolValue false; Hidden := true |} ].

(** A parsed command line ([*cli.Command] as the action receives it): the
    flags the command declares and the values given on the command line,
    under the flag's [Name].  Values of flags the command inherits (such as
    [verbose]) are among them as well. *)
Record Command : Type := {
  Flags : list Flag;
  given : list (string * flagValue)
}.

Fixpoint lookupGiven (name : string) (vs : list (string * flagValue)) : option flagValue :=
  match vs with
  | [] => None
  | (n, v) :: vs' => if String.eqb n name then Some v else lookupGiven name vs'
  end.

Fixpoint lookupFlag (name : string) (fs : list Flag) : option Flag :=
  match fs with
  | [] => None
  | f :: fs' => if String.eqb (Name f) name then Some f else lookupFlag name fs'
  end.

(** The value a flag has: the one given, else the declared default. *)
Definition flagOf (cmd : Command) (name : string) : option flagValue :=
  match lookupGiven name (given cmd) with
  | Some v => Some v
  | None => option_map Value (lookupFlag name (Flags cmd))
  end.

(** [cmd.Int(name)] and the like: the zero value when there is no such flag
    or it is of another kind. *)
Definition cmd_Int (cmd : Command) (name : string) : Z :=
  match flagOf cmd name with Some (IntValue z) => z | _ => 0 end.
Definition cmd_String (cmd : Command) (name : string) : string :=
  match flagOf cmd name with Some (StringValue s) => s | _ => EmptyString end.
Definition cmd_Bool (cmd : Command) (name : string) : bool :=
  match flagOf cmd name with Some (BoolValue b) => b | _ => false end.
Definition cmd_Duration (cmd : Command) (name : string) : Z :=
  match flagOf cmd name with Some (DurationValue d) => d | _ => 0 end.
Definition cmd_Float (cmd : Command) (name : string) : float64 :=
  match flagOf cmd name with Some (FloatValue f) => f | _ => f64_zero end.

(** [loadtester.TesterParams], the fields the command fills in *)
Record TesterParams : Type := {
  URL : string;
  APIKey : string;
  APISecret : string;
  Room : string;
  IdentityPrefix : string;
  TLayout : Layout
}.

(** [loadtester.Params], the fields the command fills in; a field the
    command does not assign holds its zero value. *)
Record Params : Type := {
  VideoPublishers : Z;
  AudioPublishers : Z;
  Subscribers : Z;
  VideoResolution : string;
  VideoCodec : string;
  PDuration : Z;
  NumPerSecond : float64;
  Simulcast : bool;
  SimulateSpeakers : bool;
  FairprocConfigWebWidth : Z;
  FairprocConfigWebHieght : Z;
  FairprocConfigWebBitrate : Z;
  FairprocConfigScreenWidth : Z;
  FairprocConfigScreenHeight : Z;
  FairprocConfigScreenBitrate : Z;
  FairprocAudioBitrate : Z;
  IsFairproc : bool;
  PTesterParams : TesterParams
}.

Definition set_Duration (p : Params) (d : Z) : Params :=
  {| VideoPublishers := VideoPublishers p; AudioPublishers := AudioPublishers p;
     Subscribers := Subscribers p; VideoResolution := VideoResolution p;
     VideoCodec := VideoCodec p; PDuration := d; NumPerSecond := NumPerSecond p;
     Simulcast := Simulcast p; SimulateSpeakers := SimulateSpeakers p;
     FairprocConfigWebWidth := FairprocConfigWebWidth p;
     FairprocConfigWebHieght := FairprocConfigWebHieght p;
     FairprocConfigWebBitrate := FairprocConfigWebBitrate p;
     FairprocConfigScreenWidth := FairprocConfigScreenWidth p;
     FairprocConfigScreenHeight := FairprocConfigScreenHeight p;
     FairprocConfigScreenBitrate := FairprocConfigScreenBitrate p;
     FairprocAudioBitrate := FairprocAudioBitrate p; IsFairproc := IsFairproc p;
     PTesterParams := PTesterParams p |}.

Definition set_VideoPublishers (p : Params) (n : Z) : Params :=
  {| VideoPublishers := n; AudioPublishers := AudioPublishers p;
     Subscribers := Subscribers p; VideoResolution := VideoResolution p;
     VideoCodec := VideoCodec p; PDuration := PDuration p;
     NumPerSecond := NumPerSecond p;
     Simulcast := Simulcast p; SimulateSpeakers := SimulateSpeakers p;
     FairprocConfigWebWidth := FairprocConfigWebWidth p;
     FairprocConfigWebHieght := FairprocConfigWebHieght p;
     FairprocConfigWebBitrate := FairprocConfigWebBitrate p;
     FairprocConfigScreenWidth := FairprocConfigScreenWidth p;
     FairprocConfigScreenHeight := FairprocConfigScreenHeight p;
     FairprocConfigScreenBitrate := FairprocConfigScreenBitrate p;
     FairprocAudioBitrate := FairprocAudioBitrate p; IsFairproc := IsFairproc p;
     PTesterParams := PTesterParams p |}.

Definition set_AudioPublishers (p : Params) (n : Z) : Params :=
  {| VideoPublishers := VideoPublishers p; AudioPublishers := n;
     Subscribers := Subscribers p; VideoResolution := VideoResolution p;
     VideoCodec := VideoCodec p; PDuration := PDuration p;
     NumPerSecond := NumPerSecond p;
     Simulcast := Simulcast p; SimulateSpeakers := SimulateSpeakers p;
     FairprocConfigWebWidth := FairprocConfigWebWidth p;
     FairprocConfigWebHieght := FairprocConfigWebHieght p;
     FairprocConfigWebBitrate := FairprocConfigWebBitrate p;
     FairprocConfigScreenWidth := FairprocConfigScreenWidth p;
     FairprocConfigScreenHeight := FairprocConfigScreenHeight p;
     FairprocConfigScreenBitrate := FairprocConfigScreenBitrate p;
     FairprocAudioBitrate := FairprocAudioBitrate p; IsFairproc := IsFairproc p;
     PTesterParams := PTesterParams p |}.

Definition set_Subscribers (p : Params) (n : Z) : Params :=
  {| VideoPublishers := VideoPublishers p; AudioPublishers := AudioPublishers p;
     Subscribers := n; VideoResolution := VideoResolution p;
     VideoCodec := VideoCodec p; PDuration := PDuration p;
     NumPerSecond := NumPerSecond p;
     Simulcast := Simulcast p; SimulateSpeakers := SimulateSpeakers p;
     FairprocConfigWebWidth := FairprocConfigWebWidth p;
     FairprocConfigWebHieght := FairprocConfigWebHieght p;
     FairprocConfigWebBitrate := FairprocConfigWebBitrate p;
     FairprocConfigScreenWidth := FairprocConfigScreenWidth p;
     FairprocConfigScreenHeight := FairprocConfigScreenHeight p;
     FairprocConfigScreenBitrate := FairprocConfigScreenBitrate p;
     FairprocAudioBitrate := FairprocAudioBitrate p; IsFairproc := IsFairproc p;
     PTesterParams := PTesterParams p |}.

(** What the command calls outside its file: [loadProjectDetails(cmd)], and
    the results of [test.Run(ctx)] and [test.RunSuite(ctx)] for the load test
    made from given parameters. *)
Class LoadTestEnv : Type := {
  loadProjectDetails : Command -> result ProjectConfig;
  Run : Params -> option error;
  RunSuite : Params -> option error
}.
Context {E : LoadTestEnv}.

(** The calls with an effect outside the command, in the order made *)
Inductive event : Type :=
| LoadProjectDetails
| SetLoggerDiscard
| RaiseULimit
| NewLoadTest (p : Params)
| TestRun (p : Params)
| TestRunSuite (p : Params).

(** Lines 155-178: the parameters read from the flags *)
Definition paramsOf (cmd : Command) (pc : ProjectConfig) : Params :=
  {| VideoPublishers := 0; AudioPublishers := 0; Subscribers := 0;
     VideoResolution := cmd_String cmd "video-resolution";
     VideoCodec := cmd_String cmd "video-codec";
     PDuration := cmd_Duration cmd "duration";
     NumPerSecond := cmd_Float cmd "num-per-second";
     Simulcast := negb (cmd_Bool cmd "no-simulcast");
     SimulateSpeakers := cmd_Bool cmd "simulate-speakers";
     FairprocConfigWebWidth := cmd_Int cmd "fairproc-config-web-width";
     FairprocConfigWebHieght := cmd_Int cmd "fairproc-config-web-height";
     FairprocConfigWebBitrate := cmd_Int cmd "fairproc-config-web-bitrate";
     FairprocConfigScreenWidth := cmd_Int cmd "fairproc-config-screen-width";
     FairprocConfigScreenHeight := cmd_Int cmd "fairproc-config-screen-height";
     FairprocConfigScreenBitrate := cmd_Int cmd "fairproc-config-screen-bitrate";
     FairprocAudioBitrate := cmd_Int cmd "fairproc-config-audio-bitrate";
     IsFairproc := cmd_Bool cmd "fairproc-rooms";
     PTesterParams :=
       {| URL := pc_URL pc; APIKey := pc_APIKey pc; APISecret := pc_APISecret pc;
          Room := cmd_String cmd "room";
          IdentityPrefix := cmd_String cmd "identity-prefix";
          TLayout := LayoutFromString (cmd_String cmd "layout") |} |}.

(** The condition of lines 194-195 *)
Definition fairprocMissing (params : Params) : bool :=
  (FairprocAudioBitrate params =? -1) || (FairprocConfigScreenHeight params =? -1)
  || (FairprocConfigScreenWidth params =? -1)
  || (FairprocConfigWebBitrate params =? -1) || (FairprocConfigWebHieght params =? -1)
  || (FairprocConfigWebWidth params =? -1).

Definition errFairprocMissing : error :=
  errorString "fairproc missing required files".

(** [loadTest(ctx, cmd)]: the calls it made and the error it returns *)
Definition loadTest (cmd : Command) : list event * option error :=
  match loadProjectDetails cmd with
  | Err e => ([LoadProjectDetails], Some e)
  | Ok pc =>
      let calls :=
        [LoadProjectDetails]
          ++ (if negb (cmd_Bool cmd "verbose") then [SetLoggerDiscard] else [])
          ++ [RaiseULimit] in
      let params := paramsOf cmd pc in
      if cmd_Bool cmd "run-all" then
        let params :=
          if PDuration params =? 0 then set_Duration params (time_Second * 15)
          else params in
        (calls ++ [NewLoadTest params; TestRunSuite params], RunSuite params)
      else
        let params := set_VideoPublishers params (cmd_Int cmd "video-publishers") in
        let params := set_AudioPublishers params (cmd_Int cmd "audio-publishers") in
        let params := set_Subscribers params (cmd_Int cmd "subscribers") in
        let checked :=
          if IsFairproc params then
            if fairprocMissing params then Err errFairprocMissing
            else
              let params := set_AudioPublishers params 2 in
              let params := set_VideoPublishers params 3 in
              Ok params
          else Ok params in
        match checked with
        | Err e => (calls, Some e)
        | Ok params => (calls ++ [NewLoadTest params; TestRun params], Run params)
        end
  end.

(** The calls [loadTest] has made when it reaches line 180 *)
Definition callsBeforeTest (cmd : Command) : list event :=
  [LoadProjectDetails]
    ++ (if negb (cmd_Bool cmd "verbose") then [SetLoggerDiscard] else [])
    ++ [RaiseULimit].

(** A call that constructs, runs or runs the suite of a load test *)
Definition touchesLoadTest (ev : event) : bool :=
  match ev with
  | NewLoadTest _ | TestRun _ | TestRunSuite _ => true
  | _ => false
  end.

(** The flags line 189-191 read *)
Definition countFlags : list string :=
  ["video-publishers"; "audio-publishers"; "subscribers"]%string.

(** Every flag name [loadTest] passes to [cmd.String], [cmd.Duration],
    [cmd.Float], [cmd.Bool] or [cmd.Int], in the order of the source *)
Definition readFlags : list string :=
  [ "verbose"; "video-resolution"; "video-codec"; "duration"; "num-per-second";
    "no-simulcast"; "simulate-speakers";
    "fairproc-config-web-width"; "fairproc-config-web-height";
    "fairproc-config-web-bitrate"; "fairproc-config-screen-width";
    "fairproc-config-screen-height"; "fairproc-config-screen-bitrate";
    "fairproc-config-audio-bitrate"; "fairproc-rooms";
    "room"; "identity-prefix"; "layout"; "run-all";
    "video-publishers"; "audio-publishers"; "subscribers" ]%string.

(** The flags the guard of lines 194-195 tests whose declared default is -1 *)
Definition fairprocUnsetByDefault : list string :=
  [ "fairproc-config-web-width"; "fairproc-config-web-height";
    "fairproc-config-web-bitrate"; "fairproc-config-screen-width";
    "fairproc-config-screen-height" ]%string.

(** The [load-test] command with the given values on its command line *)
Definition loadTestCommand (args : list (string * flagValue)) : Command :=
  {| Flags := LoadTestFlags; given := args |}.

End LoadTestCommand.

(** ** A byte-level IVF reader

    [ivfreader] is a dependency, not part of the repository.  This instance
    follows the IVF container it parses: a 32-byte file header (signature
    [DKIF], version, header size, FourCC, width, height, timebase denominator,
    timebase numerator, frame count, unused; little endian), then for each
    frame a 12-byte frame header (payload size, 8-byte timestamp) and the
    payload.  It is used to run the looper on concrete clips; every theorem
    about the looper is proved for an arbitrary [IVFReaderAPI].  Timestamps
    are handed out as stored; the worked clips have timebase 1/1. *)
Module ivf.

Definition ivfFileHeaderSize : nat := 32.
Definition ivfFrameHeaderSize : nat := 12.
Definition ivfFileHeaderSignature : list byte := [x44; x4b; x49; x46].

(** [binary.LittleEndian.UintN] *)
Fixpoint le_uint (bs : list byte) : Z :=
  match bs with
  | [] => 0
  | b :: bs' => Z.of_N (Byte.to_N b) + 256 * le_uint bs'
  end.

(** Bytes [i..j) of a slice *)
Definition slice (bs : list byte) (i j : nat) : list byte :=
  firstn (j - i) (skipn i bs).

Definition bytes_eqb (a b : list byte) : bool :=
  if list_eq_dec Byte.byte_eq_dec a b then true else false.

(** [io.ReadFull(stream, buf)] on a [bytes.Reader] with [n = len(buf)]: the
    bytes read and the rest of the stream, [io.EOF] when nothing could be
    read, [io.ErrUnexpectedEOF] when the stream ends inside the buffer. *)
Definition ReadFull (n : nat) (stream : list byte) : result (list byte) * list byte :=
  match n with
  | O => (Ok [], stream)
  | S _ =>
      match stream with
      | [] => (Err io_EOF, [])
      | _ :: _ =>
          if (List.length stream <? n)%nat then (Err io_ErrUnexpectedEOF, [])
          else (Ok (firstn n stream), skipn n stream)
      end
  end.

Record Reader : Type := {
  stream : list byte;
  bytesReadSuccesfully : Z;
  timebaseDenominator : Z;
  timebaseNumerator : Z
}.

Definition parseFileHeader (i : Reader) : result IVFFileHeader * Reader :=
  match ReadFull ivfFileHeaderSize (stream i) with
  | (Err e, rest) =>
      let i' := {| stream := rest; bytesReadSuccesfully := bytesReadSuccesfully i;
                   timebaseDenominator := timebaseDenominator i;
                   timebaseNumerator := timebaseNumerator i |} in
      (Err (match e with io_ErrUnexpectedEOF => errIncompleteFileHeader | _ => e end), i')
  | (Ok buf, rest) =>
      let signature := slice buf 0 4 in
      let version := le_uint (slice buf 4 6) in
      let header := {| FourCC := slice buf 8 12;
                       Width := le_uint (slice buf 12 14);
                       Height := le_uint (slice buf 14 16);
                       TimebaseDenominator := le_uint (slice buf 16 20);
                       TimebaseNumerator := le_uint (slice buf 20 24);
                       NumFrames := le_uint (slice buf 24 28) |} in
      let i' := {| stream := rest; bytesReadSuccesfully := bytesReadSuccesfully i;
                   timebaseDenominator := timebaseDenominator i;
                   timebaseNumerator := timebaseNumerator i |} in
      if negb (bytes_eqb signature ivfFileHeaderSignature) then (Err errSignatureMismatch, i')
      else if negb (version =? 0) then (Err (errUnknownIVFVersion version), i')
      else
        (Ok header,
         {| stream := rest;
            bytesReadSuccesfully := bytesReadSuccesfully i + Z.of_nat (List.length buf);
            timebaseDenominator := timebaseDenominator i;
            timebaseNumerator := timebaseNumerator i |})
  end.

Definition NewWith (input : list byte) : result (Reader * IVFFileHeader) :=
  let reader := {| stream := input; bytesReadSuccesfully := 0;
                   timebaseDenominator := 0; timebaseNumerator := 0 |} in
  match parseFileHeader reader with
  | (Err e, _) => Err e
  | (Ok header, reader') =>
      Ok ({| stream := stream reader';
             bytesReadSuccesfully := bytesReadSuccesfully reader';
             timebaseDenominator := TimebaseDenominator header;
             timebaseNumerator := TimebaseNumerator header |}, header)
  end.

Definition with_stream (i : Reader) (s : list byte) : Reader :=
  {| stream := s; bytesReadSuccesfully := bytesReadSuccesfully i;
     timebaseDenominator := timebaseDenominator i;
     timebaseNumerator := timebaseNumerator i |}.

Definition ParseNextFrame (i : Reader) : result (list byte * IVFFrameHeader) * Reader :=
  match ReadFull ivfFrameHeaderSize (stream i) with
  | (Err e, rest) =>
      (Err (match e with io_ErrUnexpectedEOF => errIncompleteFrameHeader | _ => e end),
       with_stream i rest)
  | (Ok buf, rest) =>
      let header := {| FrameSize := le_uint (slice buf 0 4);
                       Timestamp := le_uint (slice buf 4 12) |} in
      match ReadFull (Z.to_nat (FrameSize header)) rest with
      | (Err e, rest') =>
          (Err (match e with io_ErrUnexpectedEOF => errIncompleteFrameData | _ => e end),
           with_stream i rest')
      | (Ok payload, rest') =>
          (Ok (payload, header),
           {| stream := rest';
              bytesReadSuccesfully :=
                bytesReadSuccesfully i + Z.of_nat (List.length buf) + Z.of_nat (List.length payload);
              timebaseDenominator := timebaseDenominator i;
              timebaseNumerator := timebaseNumerator i |})
      end
  end.

(** Writing a clip, to build inputs: [n] little-endian bytes of [z]. *)
Fixpoint le_bytes (n : nat) (z : Z) : list byte :=
  match n with
  | O => []
  | S n' =>
      match Byte.of_N (Z.to_N (z mod 256)) with
      | Some b => b
      | None => x00
      end :: le_bytes n' (z / 256)
  end.

Definition fileHeaderBytes (den num nframes : Z) : list byte :=
  ivfFileHeaderSignature ++ le_bytes 2 0 ++ le_bytes 2 32
    ++ [x56; x50; x38; x30] ++ le_bytes 2 320 ++ le_bytes 2 240
    ++ le_bytes 4 den ++ le_bytes 4 num ++ le_bytes 4 nframes ++ le_bytes 4 0.

Definition frameBytes (fr : Z * list byte) : list byte :=
  le_bytes 4 (Z.of_nat (List.length (snd fr))) ++ le_bytes 8 (fst fr) ++ snd fr.

(** The clip with the given timebase and (timestamp, payload) frames *)
Definition clipBytes (den num : Z) (frames : list (Z * list byte)) : list byte :=
  fileHeaderBytes den num (Z.of_nat (List.length frames)) ++ flat_map frameBytes frames.

End ivf.

Definition ivf_reader : IVFReaderAPI := {|
  IVFReader := ivf.Reader;
  NewWith := ivf.NewWith;
  ParseNextFrame := ivf.ParseNextFrame
|}.

(** Exact rational arithmetic in place of [float64], for running the looper on
    concrete clips: it agrees with [float64] on the small integers of the
    worked clips.  The conversion to [int64] truncates toward zero. *)
Module exactfloat.
Definition to_int64 (q : Q) : Z := wrap_int64 (Z.quot (Qnum q) (Zpos (Qden q))).
End exactfloat.

Definition exact_float : Float64Ops := {|
  float64 := Q;
  f64_zero := 0%Q;
  f64_of_uint := inject_Z;
  f64_div := Qdiv;
  f64_mul := Qmult;
  f64_to_int64 := exactfloat.to_int64
|}.

(** *** Worked clips *)

Section WorkedClips.
#[local] Existing Instance exact_float.
#[local] Existing Instance ivf_reader.

(** Two frames, stamped 0 and 1, timebase 1/1 *)
Definition clip2 : list byte :=
  ivf.clipBytes 1 1 [(0, [x0a; x0b]); (1, [x0c])].

(** A well-formed file header and no frame *)
Definition clip0 : list byte := ivf.clipBytes 1 1 [].

(** What the reader finds in the two clips *)
Definition clip2_header : IVFFileHeader :=
  {| FourCC := [x56; x50; x38; x30]; Width := 320; Height := 240;
     TimebaseDenominator := 1; TimebaseNumerator := 1; NumFrames := 2 |}.

Definition clip2_frames : list (list byte * IVFFrameHeader) :=
  [ ([x0a; x0b], {| FrameSize := 2; Timestamp := 0 |});
    ([x0c], {| FrameSize := 1; Timestamp := 1 |}) ].

Definition clip0_header : IVFFileHeader :=
  {| FourCC := [x56; x50; x38; x30]; Width := 320; Height := 240;
     TimebaseDenominator := 1; TimebaseNumerator := 1; NumFrames := 0 |}.

Definition spec30 : videoSpec :=
  {| width := 320; height := 240; kbps := 150; fps := 30; quality := 0 |}.

(** The reader [NewWith clip0] returns, which is at the end of the clip, and
    the looper that has opened [clip0] *)
Definition clip0_reader : ivf.Reader :=
  {| ivf.stream := []; ivf.bytesReadSuccesfully := 32;
     ivf.timebaseDenominator := 1; ivf.timebaseNumerator := 1 |}.

(** The looper [NewVPVideoLooper] returns for [bytes] at 30 frames a second *)
Definition looperOf (bytes : list byte) : VPVideoLooper :=
  {| buffer := bytes; frameDuration := 33333333; spec := spec30;
     reader := None; ivfTimebase := f64_zero; lastTimestamp := 0;
     isVp9Encoding := false |}.

Definition clip0_opened : VPVideoLooper :=
  set_ivfTimebase (set_reader (looperOf clip0) (Some clip0_reader))
                  (timebaseOf clip0_header).

(** [clip2] cut off one byte into a third frame header *)
Definition clip2_truncated : list byte := clip2 ++ [x05].

(** The readers at the start of [clip2_truncated] and after the failed parse *)
Definition clip2_truncated_reader : ivf.Reader :=
  {| ivf.stream := skipn 32 clip2_truncated; ivf.bytesReadSuccesfully := 32;
     ivf.timebaseDenominator := 1; ivf.timebaseNumerator := 1 |}.

Definition clip2_truncated_end : ivf.Reader :=
  {| ivf.stream := []; ivf.bytesReadSuccesfully := 59;
     ivf.timebaseDenominator := 1; ivf.timebaseNumerator := 1 |}.

(** [clip0] with a wrong first signature byte *)
Definition clip_badsig : list byte := x58 :: tl clip0.

End WorkedClips.

(** *** Worked command lines *)

(** Layouts named by their strings, a fixed project, and a load test whose
    run and suite succeed. *)
Definition layout_names : LayoutAPI :=
  {| Layout := string; LayoutFromString := fun s => s |}.

Definition localProject : ProjectConfig :=
  {| pc_URL := "ws://localhost:7880"; pc_APIKey := "devkey";
     pc_APISecret := "secret" |}.

Section WorkedCommands.
#[local] Existing Instance exact_float.
#[local] Existing Instance layout_names.

Definition quiet_env : LoadTestEnv :=
  {| loadProjectDetails := fun _ => Ok localProject;
     Run := fun _ => None;
     RunSuite := fun _ => None |}.

(** [lk load-test] with the given flags *)
Definition lk_load_test (args : list (string * flagValue)) : Command :=
  {| Flags := LoadTestFlags; given := args |}.

(** [--fairproc-rooms] and nothing else *)
Definition cmd_fairproc_bare : Command :=
  lk_load_test [("fairproc-rooms"%string, BoolValue true)].

(** [--fairproc-rooms] with web width, web height, web bitrate and screen
    bitrate, and nothing else *)
Definition cmd_fairproc_four : Command :=
  lk_load_test
    [ ("fairproc-rooms"%string, BoolValue true);
      ("fairproc-config-web-width"%string, IntValue 300);
      ("fairproc-config-web-height"%string, IntValue 200);
      ("fairproc-config-web-bitrate"%string, IntValue 29);
      ("fairproc-config-screen-bitrate"%string, IntValue 50) ].

(** [--fairproc-rooms] with every fairproc sub-parameter, and publisher
    counts of its own *)
Definition cmd_fairproc_full : Command :=
  lk_load_test
    [ ("fairproc-rooms"%string, BoolValue true);
      ("fairproc-config-web-width"%string, IntValue 300);
      ("fairproc-config-web-height"%string, IntValue 200);
      ("fairproc-config-web-bitrate"%string, IntValue 29);
      ("fairproc-config-screen-width"%string, IntValue 300);
      ("fairproc-config-screen-height"%string, IntValue 200);
      ("fairproc-config-screen-bitrate"%string, IntValue 50);
      ("video-publishers"%string, IntValue 7);
      ("audio-publishers"%string, IntValue 9);
      ("subscribers"%string, IntValue 4) ].

(** [--run-all --fairproc-rooms] with publisher counts *)
Definition cmd_suite_fairproc : Command :=
  lk_load_test
    [ ("run-all"%string, BoolValue true);
      ("fairproc-rooms"%string, BoolValue true);
      ("video-publishers"%string, IntValue 7);
      ("audio-publishers"%string, IntValue 9);
      ("subscribers"%string, IntValue 4) ].

(** [--video-publishers 3 --subscribers 2 --room-count 5] *)
Definition cmd_plain : Command :=
  lk_load_test
    [ ("video-publishers"%string, IntValue 3);
      ("subscribers"%string, IntValue 2);
      ("room-count"%string, IntValue 5) ].

(** [--fairproc-rooms] with every sub-parameter but the screen bitrate *)
Definition cmd_fairproc_no_screen_bitrate : Command :=
  lk_load_test
    [ ("fairproc-rooms"%string, BoolValue true);
      ("fairproc-config-web-width"%string, IntValue 300);
      ("fairproc-config-web-height"%string, IntValue 200);
      ("fairproc-config-web-bitrate"%string, IntValue 29);
      ("fairproc-config-screen-width"%string, IntValue 300);
      ("fairproc-config-screen-height"%string, IntValue 200) ].

(** [--run-all --duration 1m] *)
Definition cmd_suite_minute : Command :=
  lk_load_test
    [ ("run-all"%string, BoolValue true);
      ("duration"%string, DurationValue 60000000000) ].

End WorkedCommands.

(** * Properties of the looper *)

Section LooperProperties.
Context {F : Float64Ops} {R : IVFReaderAPI}.

(** ** The four ways through [nextSample] *)

Lemma nextSample_open_error rewindEOF l e :
  openIfNil l = Err e ->
  nextSample rewindEOF l = failWith l e.
Proof.
  intros H. simp nextSample. rewrite H. reflexivity.
Qed.

Lemma nextSample_frame rewindEOF l r l1 frame header r' :
  openIfNil l = Ok (r, l1) ->
  ParseNextFrame r = (Ok (frame, header), r') ->
  nextSample rewindEOF l = deliver (set_reader l1 (Some r')) frame header.
Proof.
  intros H1 H2. simp nextSample. rewrite H1. cbn. rewrite H2. reflexivity.
Qed.

Lemma nextSample_rewind l r l1 r' :
  openIfNil l = Ok (r, l1) ->
  ParseNextFrame r = (Err io_EOF, r') ->
  nextSample true l = nested (nextSample false (set_reader l1 None)).
Proof.
  intros H1 H2. rewrite nextSample_equation_1, H1. cbn. rewrite H2. reflexivity.
Qed.

Lemma nextSample_parse_error rewindEOF l r l1 e r' :
  openIfNil l = Ok (r, l1) ->
  ParseNextFrame r = (Err e, r') ->
  is_EOF e && rewindEOF = false ->
  nextSample rewindEOF l = failWith (set_reader l1 (Some r')) e.
Proof.
  intros H1 H2 H3. simp nextSample. rewrite H1. cbn. rewrite H2. cbn.
  destruct (is_EOF e), rewindEOF; try discriminate; reflexivity.
Qed.

(** ** What no call changes *)

Lemma sameClip_refl l : sameClip l l.
Proof. repeat split. Qed.

Lemma sameClip_trans l1 l2 l3 : sameClip l1 l2 -> sameClip l2 l3 -> sameClip l1 l3.
Proof.
  unfold sameClip. intros (A1 & A2 & A3 & A4) (B1 & B2 & B3 & B4).
  repeat split; congruence.
Qed.

Lemma openIfNil_ok l r l1 :
  openIfNil l = Ok (r, l1) -> sameClip l l1 /\ reader l1 = Some r.
Proof.
  unfold openIfNil. destruct (reader l) as [r0|] eqn:Hr.
  - intros H. inversion H; subst. split; [apply sameClip_refl | assumption].
  - destruct (NewWith (buffer l)) as [[r0 h]|e]; [|discriminate].
    intros H. inversion H; subst. split; [repeat split | reflexivity].
Qed.

Lemma nextSample_sameClip rewindEOF l : sameClip l (self (nextSample rewindEOF l)).
Proof.
  funelim (nextSample rewindEOF l);
    try match goal with
        | H : openIfNil _ = Ok _ |- _ => apply openIfNil_ok in H; destruct H as [Hs _]
        end.
  - apply sameClip_refl.
  - eapply sameClip_trans; [exact Hs|]. repeat split.
  - eapply sameClip_trans; [exact Hs|].
    match goal with IH : sameClip _ _ |- _ =>
      eapply sameClip_trans; [|exact IH] end.
    repeat split.
  - eapply sameClip_trans; [exact Hs|]. repeat split.
  - eapply sameClip_trans; [exact Hs|]. repeat split.
Qed.

Lemma pulls_sameClip n l : sameClip l (pulls n l).
Proof.
  induction n as [|n IH]; cbn [pulls].
  - apply sameClip_refl.
  - eapply sameClip_trans; [exact IH | apply nextSample_sameClip].
Qed.

(** ** Call depth *)

Lemma nextSample_false_depth l : depth (nextSample false l) = 1%nat.
Proof.
  remember false as b eqn:Hb.
  funelim (nextSample b l); reflexivity || discriminate.
Qed.

Lemma nextSample_depth_le rewindEOF l :
  (1 <= depth (nextSample rewindEOF l) <= 2)%nat.
Proof.
  funelim (nextSample rewindEOF l); cbn [depth failWith deliver nested]; try lia.
  rewrite nextSample_false_depth. lia.
Qed.

(** ** A sample that is returned without error *)

Lemma nextSample_ok_duration rewindEOF l :
  err (nextSample rewindEOF l) = None ->
  Duration (sample (nextSample rewindEOF l)) = frameDuration l.
Proof.
  funelim (nextSample rewindEOF l); cbn [err sample failWith deliver nested Duration];
    try discriminate;
    try match goal with
        | H : openIfNil _ = Ok _ |- _ => apply openIfNil_ok in H; destruct H as [Hs _]
        end.
  - intros _. destruct Hs as (_ & Hd & _). exact Hd.
  - intros He.
    match goal with IH : _ -> Duration _ = _ |- _ => rewrite (IH He) end.
    destruct Hs as (_ & Hd & _). exact Hd.
Qed.

(** ** One pass after another *)

(** The first frame, from a receiver that holds no reader *)
Lemma nextSample_fresh rewindEOF l h x rest :
  reader l = None ->
  ClipOf (buffer l) h (x :: rest) ->
  err (nextSample rewindEOF l) = None
  /\ Data (sample (nextSample rewindEOF l)) = fst x
  /\ depth (nextSample rewindEOF l) = 1%nat
  /\ JustReturned h (x :: rest) 0 (self (nextSample rewindEOF l)).
Proof.
  intros Hr (r0 & Hnew & Hreads).
  inversion Hreads as [|? r1 frame header fs Hparse Hrest]; subst.
  assert (Hopen : openIfNil l
                  = Ok (r0, set_ivfTimebase (set_reader l (Some r0)) (timebaseOf h))).
  { unfold openIfNil. rewrite Hr, Hnew. reflexivity. }
  rewrite (nextSample_frame rewindEOF l _ _ _ _ _ Hopen Hparse).
  cbn. repeat split.
  exists r1, [], (frame, header), rest. cbn. repeat split. exact Hrest.
Qed.

Lemma NextSample_step l h fs j :
  ClipOf (buffer l) h fs ->
  JustReturned h fs j l ->
  let k := List.length fs in
  let p := NextSample l in
  err p = None
  /\ (exists header, nth_error fs (S j mod k) = Some (Data (sample p), header))
  /\ JustReturned h fs (S j mod k) (self p).
Proof.
  intros Hclip (r & before & x & rest & Hfs & Hlen & Hr & Hreads & Hts & Htb) k p.
  assert (Hk : k = (List.length before + S (List.length rest))%nat).
  { unfold k. rewrite Hfs, length_app. reflexivity. }
  assert (Hopen : openIfNil l = Ok (r, l)).
  { unfold openIfNil. rewrite Hr. reflexivity. }
  inversion Hreads as [? r1 Hparse|? r1 frame header rest' Hparse Hrest]; subst rest.
  - (* the clip is exhausted: reopen and take its first frame *)
    assert (Hj : (S j mod k = 0)%nat).
    { rewrite Hk, <- Hlen. cbn [List.length].
      replace (List.length before + 1)%nat with (S (List.length before)) by lia.
      apply Nat.Div0.mod_same. }
    unfold p, NextSample. rewrite (nextSample_rewind l _ _ _ Hopen Hparse).
    destruct fs as [|x0 fs0]; [destruct before; discriminate|].
    assert (Hclip' : ClipOf (buffer (set_reader l None)) h (x0 :: fs0)) by exact Hclip.
    destruct (nextSample_fresh false (set_reader l None) h x0 fs0 eq_refl Hclip')
      as (He & Hd & _ & Hinv).
    rewrite Hj. cbn [err sample self nested]. repeat split.
    + exact He.
    + exists (snd x0). cbn. rewrite Hd. destruct x0; reflexivity.
    + exact Hinv.
  - (* the next frame of the pass *)
    assert (Hj : (S j mod k = S j)%nat).
    { apply Nat.mod_small. rewrite Hk, <- Hlen. cbn. lia. }
    unfold p, NextSample. rewrite (nextSample_frame true l _ _ _ _ _ Hopen Hparse).
    rewrite Hj. cbn [err sample self deliver Data]. repeat split.
    + exists header. rewrite Hfs.
      rewrite nth_error_app2 by lia.
      replace (S j - List.length before)%nat with 1%nat by lia. reflexivity.
    + exists r1, (before ++ [x]), (frame, header), rest'.
      repeat split.
      * rewrite Hfs, <- app_assoc. reflexivity.
      * rewrite length_app. cbn. lia.
      * exact Hrest.
      * cbn. exact Htb.
Qed.

Lemma JustReturned_nth h fs j l :
  JustReturned h fs j l ->
  exists frame header,
    nth_error fs j = Some (frame, header) /\ lastTimestamp l = Timestamp header.
Proof.
  intros (r & before & [frame header] & rest & Hfs & Hlen & _ & _ & Hts & _).
  exists frame, header. split; [|exact Hts].
  rewrite Hfs, nth_error_app2 by lia.
  replace (j - List.length before)%nat with 0%nat by lia. reflexivity.
Qed.

Lemma pulls_cycle l h fs :
  reader l = None ->
  ClipOf (buffer l) h fs ->
  fs <> [] ->
  forall i : nat,
    let k := List.length fs in
    err (pull i l) = None
    /\ (exists header, nth_error fs (i mod k) = Some (Data (sample (pull i l)), header))
    /\ JustReturned h fs (i mod k) (pulls (S i) l).
Proof.
  intros Hr Hclip Hne i k.
  assert (Hk : k <> 0%nat).
  { unfold k. destruct fs; [congruence | discriminate]. }
  induction i as [|i IH].
  - destruct fs as [|x rest]; [congruence|].
    destruct (nextSample_fresh true l h x rest Hr Hclip) as (He & Hd & _ & Hinv).
    rewrite Nat.Div0.mod_0_l. unfold pull. cbn [pulls]. unfold NextSample.
    repeat split; [exact He | | exact Hinv].
    exists (snd x). cbn. rewrite Hd. destruct x; reflexivity.
  - destruct IH as (_ & _ & Hinv).
    assert (Hclip' : ClipOf (buffer (pulls (S i) l)) h fs).
    { destruct (pulls_sameClip (S i) l) as (Hb & _). rewrite Hb. exact Hclip. }
    pose proof (NextSample_step _ h fs _ Hclip' Hinv) as Hstep.
    cbn zeta in Hstep. fold k in Hstep.
    replace (S (i mod k) mod k)%nat with (S i mod k)%nat in Hstep.
    + exact Hstep.
    + replace (S (i mod k)) with (i mod k + 1)%nat by lia.
      rewrite Nat.Div0.add_mod_idemp_l. f_equal. lia.
Qed.

(** ** The constructor *)

Lemma NewVPVideoLooper_ok input sp vp9 l :
  NewVPVideoLooper input sp vp9 = Returns (Ok l) ->
  input = Ok (buffer l) /\ reader l = None /\ lastTimestamp l = 0
  /\ fps sp <> 0 /\ frameDuration l = Z.quot time_Second (fps sp)
  /\ spec l = sp /\ isVp9Encoding l = vp9.
Proof.
  unfold NewVPVideoLooper. destruct (Z.eqb_spec (fps sp) 0) as [|Hfps]; [discriminate|].
  destruct input as [bytes|e]; [|discriminate].
  intros H. inversion H; subst. cbn. repeat split. exact Hfps.
Qed.

(** ** A clip without frames *)

(** The receiver holds no reader, or one that reports [io.EOF]. *)
Lemma nextSample_exhausted l h :
  EOFPersists ->
  ClipOf (buffer l) h [] ->
  (reader l = None
   \/ exists r r', reader l = Some r /\ ParseNextFrame r = (Err io_EOF, r')) ->
  let p := NextSample l in
  sample p = Sample_zero /\ err p = Some io_EOF /\ depth p = 2%nat
  /\ exists r r', reader (self p) = Some r /\ ParseNextFrame r = (Err io_EOF, r').
Proof.
  intros Hsticky (r0 & Hnew & Hreads) Hst p.
  inversion Hreads as [? r0' Hparse0|]; subst.
  destruct (Hsticky _ _ Hparse0) as (r0'' & Hparse0').
  assert (Hretry : forall l1, buffer l1 = buffer l ->
            nextSample false (set_reader l1 None)
            = failWith (set_reader
                          (set_ivfTimebase (set_reader (set_reader l1 None) (Some r0))
                                           (timebaseOf h)) (Some r0')) io_EOF).
  { intros l1 Hb.
    apply (nextSample_parse_error false _ r0 _ io_EOF r0'); [|exact Hparse0|reflexivity].
    unfold openIfNil. cbn [reader set_reader buffer]. rewrite Hb, Hnew. reflexivity. }
  unfold p, NextSample.
  destruct Hst as [Hr | (r & r' & Hr & Hparse)].
  - assert (Hopen : openIfNil l
                    = Ok (r0, set_ivfTimebase (set_reader l (Some r0)) (timebaseOf h))).
    { unfold openIfNil. rewrite Hr, Hnew. reflexivity. }
    rewrite (nextSample_rewind l _ _ _ Hopen Hparse0), Hretry by reflexivity.
    cbn. repeat split. exists r0', r0''. split; [reflexivity | exact Hparse0'].
  - assert (Hopen : openIfNil l = Ok (r, l)).
    { unfold openIfNil. rewrite Hr. reflexivity. }
    rewrite (nextSample_rewind l _ _ _ Hopen Hparse), Hretry by reflexivity.
    cbn. repeat split. exists r0', r0''. split; [reflexivity | exact Hparse0'].
Qed.

Lemma pulls_exhausted l h :
  EOFPersists ->
  ClipOf (buffer l) h [] ->
  reader l = None ->
  forall i : nat,
    (sample (pull i l) = Sample_zero /\ err (pull i l) = Some io_EOF
     /\ depth (pull i l) = 2%nat)
    /\ exists r r', reader (pulls (S i) l) = Some r
                    /\ ParseNextFrame r = (Err io_EOF, r').
Proof.
  intros Hsticky Hclip Hr i. induction i as [|i IH].
  - destruct (nextSample_exhausted l h Hsticky Hclip (or_introl Hr))
      as (Hs & He & Hd & Hst).
    unfold pull. cbn [pulls]. auto.
  - destruct IH as (_ & Hst).
    assert (Hclip' : ClipOf (buffer (pulls (S i) l)) h []).
    { destruct (pulls_sameClip (S i) l) as (Hb & _). rewrite Hb. exact Hclip. }
    destruct (nextSample_exhausted _ h Hsticky Hclip' (or_intror Hst))
      as (Hs & He & Hd & Hst').
    unfold pull. cbn [pulls]. auto.
Qed.

(** ** The statements of the specification *)

(** C1.  A looper built over a clip of [k >= 1] frames never reports an
    error, end-of-stream included: the pull number [i] (from 0) returns the
    payload of frame [i mod k], so the clip is replayed from its first frame
    each time it is exhausted. *)
Theorem looper_pull_is_frame_i_mod_k bytes sp vp9 l h fs :
  NewVPVideoLooper (Ok bytes) sp vp9 = Returns (Ok l) ->
  ClipOf bytes h fs ->
  (1 <= List.length fs)%nat ->
  forall i : nat,
    err (pull i l) = None
    /\ exists header,
         nth_error fs (i mod List.length fs) = Some (Data (sample (pull i l)), header).
Proof.
  intros Hnew Hclip Hk i.
  destruct (NewVPVideoLooper_ok _ _ _ _ Hnew) as (Hin & Hr & _).
  inversion Hin; subst bytes.
  assert (Hne : fs <> []) by (destruct fs; [cbn in Hk; lia | discriminate]).
  destruct (pulls_cycle l h fs Hr Hclip Hne i) as (He & Hd & _).
  split; assumption.
Qed.

(** C2.  Every sample [NextSample] returns without error on a looper built
    for frame rate [fps] lasts one second divided by [fps] (Go's truncating
    division of nanoseconds), whatever the clip's timebase and timestamps
    are and whatever the floating-point computation on them yields. *)
Theorem looper_sample_duration_is_fixed input sp vp9 l :
  NewVPVideoLooper input sp vp9 = Returns (Ok l) ->
  forall i : nat,
    err (pull i l) = None ->
    Duration (sample (pull i l)) = Z.quot 1000000000 (fps sp).
Proof.
  intros Hnew i He.
  destruct (NewVPVideoLooper_ok _ _ _ _ Hnew) as (_ & _ & _ & _ & Hfd & _).
  unfold pull, NextSample in *.
  rewrite (nextSample_ok_duration true _ He).
  destruct (pulls_sameClip i l) as (_ & Hd & _).
  rewrite Hd, Hfd. reflexivity.
Qed.

(** C5, as the code has it.  A clip whose header parses and that holds no
    frame is opened without error; every pull on it ends after one reopen
    (call depth 2) and returns the zero sample together with [io.EOF], and
    the looper is left holding the reopened reader. *)
Theorem looper_zero_frame_clip_reports_EOF bytes sp vp9 l h :
  NewVPVideoLooper (Ok bytes) sp vp9 = Returns (Ok l) ->
  EOFPersists ->
  ClipOf bytes h [] ->
  forall i : nat,
    sample (pull i l) = Sample_zero
    /\ err (pull i l) = Some io_EOF
    /\ depth (pull i l) = 2%nat
    /\ exists r, reader (pulls (S i) l) = Some r.
Proof.
  intros Hnew Hsticky Hclip i.
  destruct (NewVPVideoLooper_ok _ _ _ _ Hnew) as (Hin & Hr & _).
  inversion Hin; subst bytes.
  destruct (pulls_exhausted l h Hsticky Hclip Hr i)
    as ((Hs & He & Hd) & r & r' & Hrd & _).
  repeat split; try assumption. exists r. exact Hrd.
Qed.

(** C6, as the code has it.  On a clip of [k >= 1] frames the timestamp the
    looper holds after pull number [i] is the one of frame [i mod k], the
    frame just returned.  So from one pull to the next it does not decrease
    inside a pass when the clip's timestamps do not, and at a rewind it is
    the first frame's timestamp again.  No pull changes the buffer, the frame
    duration, the video spec or the codec flag, and the timebase held is the
    one of the clip's header. *)
Theorem looper_lastTimestamp_follows_clip bytes sp vp9 l h fs :
  NewVPVideoLooper (Ok bytes) sp vp9 = Returns (Ok l) ->
  ClipOf bytes h fs ->
  (1 <= List.length fs)%nat ->
  forall i : nat,
    let k := List.length fs in
    (exists frame header,
        nth_error fs (i mod k) = Some (frame, header)
        /\ lastTimestamp (pulls (S i) l) = Timestamp header)
    /\ ((forall a b fa ha fb hb, (a <= b)%nat ->
           nth_error fs a = Some (fa, ha) -> nth_error fs b = Some (fb, hb) ->
           Timestamp ha <= Timestamp hb) ->
        (S i mod k)%nat <> 0%nat ->
        lastTimestamp (pulls (S i) l) <= lastTimestamp (pulls (S (S i)) l))
    /\ sameClip l (pulls i l)
    /\ ivfTimebase (pulls (S i) l) = timebaseOf h.
Proof.
  intros Hnew Hclip Hk i k.
  destruct (NewVPVideoLooper_ok _ _ _ _ Hnew) as (Hin & Hr & _).
  inversion Hin; subst bytes.
  assert (Hne : fs <> []) by (destruct fs; [cbn in Hk; lia | discriminate]).
  destruct (pulls_cycle l h fs Hr Hclip Hne i) as (_ & _ & Hinv).
  destruct (pulls_cycle l h fs Hr Hclip Hne (S i)) as (_ & _ & Hinv').
  fold k in Hinv, Hinv'.
  destruct (JustReturned_nth _ _ _ _ Hinv) as (fa & ha & Hna & Hta).
  destruct (JustReturned_nth _ _ _ _ Hinv') as (fb & hb & Hnb & Htb).
  repeat split.
  - exists fa, ha. split; assumption.
  - intros Hsorted Hnz. rewrite Hta, Htb.
    apply (Hsorted (i mod k)%nat (S i mod k)%nat fa ha fb hb); try assumption.
    assert (Hk0 : k <> 0%nat) by (unfold k; lia).
    pose proof (Nat.mod_upper_bound i k Hk0) as Hlt.
    destruct (Nat.eq_dec (S (i mod k)) k) as [Heq|Hneq].
    + exfalso. apply Hnz.
      replace (S i) with (i mod k + 1 + k * (i / k))%nat
        by (pose proof (Nat.div_mod_eq i k); lia).
      replace (i mod k + 1)%nat with (1 * k)%nat by lia.
      rewrite (Nat.mul_comm k), <- Nat.mul_add_distr_r.
      apply Nat.Div0.mod_mul.
    + replace (S i mod k)%nat with (S (i mod k)); [lia|].
      apply (Nat.mod_unique (S i) k (i / k) (S (i mod k))); [lia|].
      pose proof (Nat.div_mod_eq i k). lia.
  - apply pulls_sameClip.
  - apply pulls_sameClip.
  - apply pulls_sameClip.
  - apply pulls_sameClip.
  - destruct Hinv as (? & ? & ? & ? & _ & _ & _ & _ & _ & Htbase). exact Htbase.
Qed.

(** C7.  [nextSample] is a total function: its only recursive call passes
    [rewindEOF = false], which makes no further call.  A call uses at most
    two activations, a call with [rewindEOF = false] exactly one; and when
    the clip reports [io.EOF] again right after the reopen, the error is
    returned, with the zero sample, by the second activation. *)
Theorem nextSample_retries_at_most_once rewindEOF l :
  (1 <= depth (nextSample rewindEOF l) <= 2)%nat
  /\ depth (nextSample false l) = 1%nat
  /\ (forall r l1 r1 r2 l2 r3,
        openIfNil l = Ok (r, l1) ->
        ParseNextFrame r = (Err io_EOF, r1) ->
        openIfNil (set_reader l1 None) = Ok (r2, l2) ->
        ParseNextFrame r2 = (Err io_EOF, r3) ->
        nextSample true l
        = {| sample := Sample_zero; err := Some io_EOF;
             self := set_reader l2 (Some r3); depth := 2 |}).
Proof.
  split; [apply nextSample_depth_le|].
  split; [apply nextSample_false_depth|].
  intros r l1 r1 r2 l2 r3 Hopen Hparse Hopen' Hparse'.
  rewrite (nextSample_rewind l _ _ _ Hopen Hparse).
  rewrite (nextSample_parse_error false _ _ _ _ _ Hopen' Hparse' eq_refl).
  reflexivity.
Qed.

End LooperProperties.

(** * Properties of the load-test command *)

Section LoadTestProperties.
Context {F : Float64Ops} {LA : LayoutAPI} {E : LoadTestEnv}.

Lemma callsBeforeTest_untouched cmd :
  forallb (fun ev => negb (touchesLoadTest ev)) (callsBeforeTest cmd) = true.
Proof.
  unfold callsBeforeTest. destruct (negb (cmd_Bool cmd "verbose")); reflexivity.
Qed.

(** The parameters the suite is run with *)
Lemma loadTest_suite cmd pc :
  loadProjectDetails cmd = Ok pc ->
  cmd_Bool cmd "run-all" = true ->
  let params :=
    if PDuration (paramsOf cmd pc) =? 0
    then set_Duration (paramsOf cmd pc) (time_Second * 15)
    else paramsOf cmd pc in
  loadTest cmd
  = (callsBeforeTest cmd ++ [NewLoadTest params; TestRunSuite params], RunSuite params).
Proof.
  intros Hpc Hall. unfold loadTest. rewrite Hpc, Hall. reflexivity.
Qed.

(** Outside suite mode, with coupled mode requested *)
Lemma loadTest_fairproc cmd pc :
  loadProjectDetails cmd = Ok pc ->
  cmd_Bool cmd "run-all" = false ->
  cmd_Bool cmd "fairproc-rooms" = true ->
  let params :=
    set_Subscribers
      (set_AudioPublishers
         (set_VideoPublishers (paramsOf cmd pc) (cmd_Int cmd "video-publishers"))
         (cmd_Int cmd "audio-publishers"))
      (cmd_Int cmd "subscribers") in
  let params' := set_VideoPublishers (set_AudioPublishers params 2) 3 in
  loadTest cmd
  = if fairprocMissing (paramsOf cmd pc)
    then (callsBeforeTest cmd, Some errFairprocMissing)
    else (callsBeforeTest cmd ++ [NewLoadTest params'; TestRun params'], Run params').
Proof.
  intros Hpc Hall Hfair. unfold loadTest. rewrite Hpc, Hall.
  cbn [IsFairproc set_Subscribers set_AudioPublishers set_VideoPublishers paramsOf].
  rewrite Hfair. unfold fairprocMissing at 1. cbn.
  destruct (fairprocMissing (paramsOf cmd pc)) eqn:Hm;
    unfold fairprocMissing in Hm; cbn in Hm; rewrite Hm; reflexivity.
Qed.

(** C3, as the code has it.  Outside suite mode, with coupled mode
    requested: the command returns the configuration error when web width,
    web height, web bitrate, screen width, screen height or audio bitrate is
    -1; and when none of these nor the screen bitrate is -1, the load test is
    constructed and run, and the command returns what the run returns. *)
Theorem fairproc_validation cmd pc :
  loadProjectDetails cmd = Ok pc ->
  cmd_Bool cmd "run-all" = false ->
  cmd_Bool cmd "fairproc-rooms" = true ->
  (cmd_Int cmd "fairproc-config-web-width" = -1
   \/ cmd_Int cmd "fairproc-config-web-height" = -1
   \/ cmd_Int cmd "fairproc-config-web-bitrate" = -1
   \/ cmd_Int cmd "fairproc-config-screen-width" = -1
   \/ cmd_Int cmd "fairproc-config-screen-height" = -1
   \/ cmd_Int cmd "fairproc-config-audio-bitrate" = -1 ->
   loadTest cmd = (callsBeforeTest cmd, Some errFairprocMissing))
  /\ (cmd_Int cmd "fairproc-config-web-width" <> -1 ->
      cmd_Int cmd "fairproc-config-web-height" <> -1 ->
      cmd_Int cmd "fairproc-config-web-bitrate" <> -1 ->
      cmd_Int cmd "fairproc-config-screen-width" <> -1 ->
      cmd_Int cmd "fairproc-config-screen-height" <> -1 ->
      cmd_Int cmd "fairproc-config-screen-bitrate" <> -1 ->
      cmd_Int cmd "fairproc-config-audio-bitrate" <> -1 ->
      exists params,
        loadTest cmd
        = (callsBeforeTest cmd ++ [NewLoadTest params; TestRun params], Run params)).
Proof.
  intros Hpc Hall Hfair.
  pose proof (loadTest_fairproc cmd pc Hpc Hall Hfair) as H. cbn zeta in H.
  split.
  - intros Hunset. rewrite H.
    replace (fairprocMissing (paramsOf cmd pc)) with true; [reflexivity|].
    symmetry. unfold fairprocMissing. cbn.
    repeat rewrite orb_true_iff. repeat rewrite Z.eqb_eq. tauto.
  - intros H1 H2 H3 H4 H5 _ H7. eexists. rewrite H.
    replace (fairprocMissing (paramsOf cmd pc)) with false; [reflexivity|].
    symmetry. unfold fairprocMissing. cbn.
    repeat rewrite orb_false_iff. repeat rewrite Z.eqb_neq. tauto.
Qed.

(** C4.  Outside suite mode (the only place the validation is made), when
    coupled mode is requested and the validation passes, the load test is
    made and run with 2 audio publishers and 3 video publishers, whatever
    the [audio-publishers] and [video-publishers] flags say; the subscriber
    count is the flag's. *)
Theorem fairproc_fixes_publishers cmd pc :
  loadProjectDetails cmd = Ok pc ->
  cmd_Bool cmd "run-all" = false ->
  cmd_Bool cmd "fairproc-rooms" = true ->
  fairprocMissing (paramsOf cmd pc) = false ->
  exists params,
    loadTest cmd
    = (callsBeforeTest cmd ++ [NewLoadTest params; TestRun params], Run params)
    /\ AudioPublishers params = 2
    /\ VideoPublishers params = 3
    /\ Subscribers params = cmd_Int cmd "subscribers".
Proof.
  intros Hpc Hall Hfair Hok.
  pose proof (loadTest_fairproc cmd pc Hpc Hall Hfair) as H. cbn zeta in H.
  rewrite Hok in H. eexists. split; [exact H|]. repeat split.
Qed.

(** C8.  When coupled mode is requested outside suite mode and the
    validation fails, the command returns the configuration error, having
    made no call that constructs or runs a load test. *)
Theorem rejected_configuration_starts_nothing cmd pc :
  loadProjectDetails cmd = Ok pc ->
  cmd_Bool cmd "run-all" = false ->
  cmd_Bool cmd "fairproc-rooms" = true ->
  fairprocMissing (paramsOf cmd pc) = true ->
  snd (loadTest cmd) = Some errFairprocMissing
  /\ fst (loadTest cmd) = callsBeforeTest cmd
  /\ forall ev, In ev (fst (loadTest cmd)) -> touchesLoadTest ev = false.
Proof.
  intros Hpc Hall Hfair Hbad.
  pose proof (loadTest_fairproc cmd pc Hpc Hall Hfair) as H. cbn zeta in H.
  rewrite Hbad in H. rewrite H. cbn [fst snd]. repeat split.
  intros ev Hin.
  pose proof (callsBeforeTest_untouched cmd) as Hall'.
  rewrite forallb_forall in Hall'. specialize (Hall' ev Hin).
  destruct (touchesLoadTest ev); [discriminate | reflexivity].
Qed.

Lemma flagOf_agree (cmd cmd' : Command) name :
  (forall n, ~ In n countFlags -> flagOf cmd' n = flagOf cmd n) ->
  ~ In name countFlags ->
  cmd_Int cmd' name = cmd_Int cmd name
  /\ cmd_String cmd' name = cmd_String cmd name
  /\ cmd_Bool cmd' name = cmd_Bool cmd name
  /\ cmd_Duration cmd' name = cmd_Duration cmd name
  /\ cmd_Float cmd' name = cmd_Float cmd name.
Proof.
  intros Hagree Hn.
  unfold cmd_Int, cmd_String, cmd_Bool, cmd_Duration, cmd_Float.
  rewrite (Hagree name Hn). repeat split.
Qed.

(** C9.  In suite mode the command constructs the load test and returns
    what [RunSuite] returns, with no validation of the coupled-mode
    sub-parameters, whatever they are.  The three counts of the parameters
    are zero, and the flags [video-publishers], [audio-publishers] and
    [subscribers] have no influence: a command line that differs in these
    flags only makes the same calls with the same parameters. *)
Theorem suite_mode_ignores_counts_and_validation cmd pc :
  loadProjectDetails cmd = Ok pc ->
  cmd_Bool cmd "run-all" = true ->
  (exists params,
      loadTest cmd
      = (callsBeforeTest cmd ++ [NewLoadTest params; TestRunSuite params],
         RunSuite params)
      /\ VideoPublishers params = 0 /\ AudioPublishers params = 0
      /\ Subscribers params = 0
      /\ IsFairproc params = cmd_Bool cmd "fairproc-rooms")
  /\ (forall cmd',
        (forall n, ~ In n countFlags -> flagOf cmd' n = flagOf cmd n) ->
        loadProjectDetails cmd' = Ok pc ->
        loadTest cmd' = loadTest cmd).
Proof.
  intros Hpc Hall. split.
  - eexists. split; [apply (loadTest_suite cmd pc Hpc Hall)|].
    destruct (PDuration (paramsOf cmd pc) =? 0); repeat split.
  - intros cmd' Hagree Hpc'.
    assert (Hfl : forall name, ~ In name countFlags ->
              cmd_Int cmd' name = cmd_Int cmd name
              /\ cmd_String cmd' name = cmd_String cmd name
              /\ cmd_Bool cmd' name = cmd_Bool cmd name
              /\ cmd_Duration cmd' name = cmd_Duration cmd name
              /\ cmd_Float cmd' name = cmd_Float cmd name)
      by (intros name Hn; apply flagOf_agree; assumption).
    assert (Hall' : cmd_Bool cmd' "run-all" = true).
    { destruct (Hfl "run-all"%string) as (_ & _ & Hb & _);
        [cbn; intuition discriminate|].
      rewrite Hb. exact Hall. }
    rewrite (loadTest_suite cmd pc Hpc Hall), (loadTest_suite cmd' pc Hpc' Hall').
    assert (Hcalls : callsBeforeTest cmd' = callsBeforeTest cmd).
    { unfold callsBeforeTest.
      replace (cmd_Bool cmd' "verbose") with (cmd_Bool cmd "verbose"); [reflexivity|].
      symmetry. apply Hfl. cbn. intuition discriminate. }
    assert (Hparams : paramsOf cmd' pc = paramsOf cmd pc).
    { unfold paramsOf.
      repeat match goal with
             | |- context [cmd_Int cmd' ?n] =>
                 replace (cmd_Int cmd' n) with (cmd_Int cmd n)
                   by (symmetry; apply Hfl; cbn; intuition discriminate)
             | |- context [cmd_String cmd' ?n] =>
                 replace (cmd_String cmd' n) with (cmd_String cmd n)
                   by (symmetry; apply Hfl; cbn; intuition discriminate)
             | |- context [cmd_Bool cmd' ?n] =>
                 replace (cmd_Bool cmd' n) with (cmd_Bool cmd n)
                   by (symmetry; apply Hfl; cbn; intuition discriminate)
             | |- context [cmd_Duration cmd' ?n] =>
                 replace (cmd_Duration cmd' n) with (cmd_Duration cmd n)
                   by (symmetry; apply Hfl; cbn; intuition discriminate)
             | |- context [cmd_Float cmd' ?n] =>
                 replace (cmd_Float cmd' n) with (cmd_Float cmd n)
                   by (symmetry; apply Hfl; cbn; intuition discriminate)
             end.
      reflexivity. }
    rewrite Hcalls, Hparams. reflexivity.
Qed.

(** C10.  In suite mode the suite is run with a duration of 15 seconds when
    the [duration] flag is zero, and with the flag's duration otherwise. *)
Theorem suite_mode_default_duration cmd pc :
  loadProjectDetails cmd = Ok pc ->
  cmd_Bool cmd "run-all" = true ->
  exists params,
    loadTest cmd
    = (callsBeforeTest cmd ++ [NewLoadTest params; TestRunSuite params],
       RunSuite params)
    /\ PDuration params
       = (if cmd_Duration cmd "duration" =? 0 then 15000000000
          else cmd_Duration cmd "duration").
Proof.
  intros Hpc Hall. eexists. split; [apply (loadTest_suite cmd pc Hpc Hall)|].
  change (PDuration (paramsOf cmd pc)) with (cmd_Duration cmd "duration").
  destruct (cmd_Duration cmd "duration" =? 0) eqn:Hd; cbn; [reflexivity|].
  reflexivity.
Qed.

End LoadTestProperties.

(** ** The looper on the byte-level reader *)

Section LooperOnIVF.
#[local] Existing Instance exact_float.
#[local] Existing Instance ivf_reader.

Lemma ReadFull_error n s e rest :
  ivf.ReadFull n s = (Err e, rest) ->
  rest = [] /\ (e = io_EOF \/ e = io_ErrUnexpectedEOF).
Proof.
  unfold ivf.ReadFull. destruct n as [|n]; [discriminate|].
  destruct s as [|b s]; [intros H; inversion H; auto|].
  destruct (List.length (b :: s) <? S n)%nat; intros H; inversion H; auto.
Qed.

Lemma ivf_EOF_drains i i' :
  ivf.ParseNextFrame i = (Err io_EOF, i') -> ivf.stream i' = [].
Proof.
  unfold ivf.ParseNextFrame.
  destruct (ivf.ReadFull ivf.ivfFrameHeaderSize (ivf.stream i)) as [[buf|e] rest] eqn:H1.
  - destruct (ivf.ReadFull _ rest) as [[payload|e] rest'] eqn:H2; [discriminate|].
    apply ReadFull_error in H2. destruct H2 as [-> _].
    intros H. inversion H. reflexivity.
  - apply ReadFull_error in H1. destruct H1 as [-> _].
    intros H. inversion H. reflexivity.
Qed.

Lemma ivf_EOFPersists : EOFPersists.
Proof.
  intros r r' H. apply ivf_EOF_drains in H.
  exists (ivf.with_stream r' []).
  cbn. unfold ivf.ParseNextFrame. rewrite H. reflexivity.
Defined.

Lemma clip2_is_clip : ClipOf clip2 clip2_header clip2_frames.
Proof.
  eexists. split; [cbv; reflexivity|].
  eapply reads_frame; [cbv; reflexivity|].
  eapply reads_frame; [cbv; reflexivity|].
  eapply reads_eof. cbv. reflexivity.
Defined.

Lemma clip0_is_clip : ClipOf clip0 clip0_header [].
Proof.
  eexists. split; [cbv; reflexivity|].
  eapply reads_eof. cbv. reflexivity.
Defined.

Lemma looperOf_is_new bytes :
  NewVPVideoLooper (Ok bytes) spec30 false = Returns (Ok (looperOf bytes)).
Proof. reflexivity. Defined.

(** On [clip2] the fifth pull returns the first frame again. *)
Lemma looper_pull_is_frame_i_mod_k_witness :
  NewVPVideoLooper (Ok clip2) spec30 false = Returns (Ok (looperOf clip2))
  /\ ClipOf clip2 clip2_header clip2_frames
  /\ err (pull 4 (looperOf clip2)) = None
  /\ exists header,
       nth_error clip2_frames (4 mod 2)
       = Some (Data (sample (pull 4 (looperOf clip2))), header).
Proof.
  split; [reflexivity|]. split; [exact clip2_is_clip|].
  apply (looper_pull_is_frame_i_mod_k clip2 spec30 false (looperOf clip2)
           clip2_header clip2_frames).
  - reflexivity.
  - exact clip2_is_clip.
  - cbn. lia.
Defined.

Lemma looper_sample_duration_is_fixed_witness :
  NewVPVideoLooper (Ok clip2) spec30 false = Returns (Ok (looperOf clip2))
  /\ err (pull 3 (looperOf clip2)) = None
  /\ Duration (sample (pull 3 (looperOf clip2))) = Z.quot 1000000000 30.
Proof.
  split; [reflexivity|]. split; [vm_compute; reflexivity|].
  apply (looper_sample_duration_is_fixed (Ok clip2) spec30 false (looperOf clip2)).
  - reflexivity.
  - vm_compute. reflexivity.
Defined.

(** On [clip2] the duration computed from the clip's timing for the second
    frame is a full second; the sample carries a thirtieth of a second. *)
Example clip2_native_duration_is_discarded :
  nativeDuration (ivfTimebase (pulls 1 (looperOf clip2)))
                 (wrap_uint64 (1 - lastTimestamp (pulls 1 (looperOf clip2))))
  = 1000000000
  /\ Duration (sample (pull 1 (looperOf clip2))) = 33333333.
Proof. split; vm_compute; reflexivity. Qed.

Lemma looper_zero_frame_clip_reports_EOF_witness :
  NewVPVideoLooper (Ok clip0) spec30 false = Returns (Ok (looperOf clip0))
  /\ ClipOf clip0 clip0_header []
  /\ sample (pull 3 (looperOf clip0)) = Sample_zero
  /\ err (pull 3 (looperOf clip0)) = Some io_EOF
  /\ depth (pull 3 (looperOf clip0)) = 2%nat
  /\ exists r, reader (pulls 4 (looperOf clip0)) = Some r.
Proof.
  split; [reflexivity|]. split; [exact clip0_is_clip|].
  apply (looper_zero_frame_clip_reports_EOF clip0 spec30 false (looperOf clip0)
           clip0_header).
  - reflexivity.
  - exact ivf_EOFPersists.
  - exact clip0_is_clip.
Defined.

(** C5, the statement of the specification fails on [clip0], a well-formed
    file header followed by no frame: the looper built over it opens the
    clip without error, and it is the pull that fails, with [io.EOF]. *)
Lemma zero_frame_clip_is_opened :
  NewVPVideoLooper (Ok clip0) spec30 false = Returns (Ok (looperOf clip0))
  /\ ClipOf clip0 clip0_header []
  /\ (exists r l1, openIfNil (looperOf clip0) = Ok (r, l1))
  /\ ~ (exists e, openIfNil (looperOf clip0) = Err e)
  /\ err (NextSample (looperOf clip0)) = Some io_EOF.
Proof.
  split; [reflexivity|]. split; [exact clip0_is_clip|].
  assert (Hopen : openIfNil (looperOf clip0) = Ok (clip0_reader, clip0_opened))
    by reflexivity.
  split; [exists clip0_reader, clip0_opened; exact Hopen|].
  split; [intros (e & H); rewrite Hopen in H; discriminate|].
  vm_compute. reflexivity.
Qed.

Lemma looper_lastTimestamp_follows_clip_witness :
  NewVPVideoLooper (Ok clip2) spec30 false = Returns (Ok (looperOf clip2))
  /\ ClipOf clip2 clip2_header clip2_frames
  /\ (exists frame header,
        nth_error clip2_frames (2 mod 2) = Some (frame, header)
        /\ lastTimestamp (pulls 3 (looperOf clip2)) = Timestamp header)
  /\ sameClip (looperOf clip2) (pulls 2 (looperOf clip2)).
Proof.
  split; [reflexivity|]. split; [exact clip2_is_clip|].
  destruct (looper_lastTimestamp_follows_clip clip2 spec30 false (looperOf clip2)
              clip2_header clip2_frames (looperOf_is_new clip2) clip2_is_clip
              ltac:(cbn; lia) 2%nat) as (H1 & _ & H3 & _).
  split; [exact H1 | exact H3].
Defined.

(** C6, the statement of the specification fails on [clip2] (frames stamped
    0 and 1): the first three pulls succeed, the second leaves timestamp 1
    and the third, which rewinds, leaves 0. *)
Lemma lastTimestamp_decreases_at_rewind :
  err (pull 0 (looperOf clip2)) = None
  /\ err (pull 1 (looperOf clip2)) = None
  /\ err (pull 2 (looperOf clip2)) = None
  /\ lastTimestamp (pulls 2 (looperOf clip2)) = 1
  /\ lastTimestamp (pulls 3 (looperOf clip2)) = 0
  /\ ~ (lastTimestamp (pulls 2 (looperOf clip2))
        <= lastTimestamp (pulls 3 (looperOf clip2))).
Proof.
  repeat split; try (vm_compute; reflexivity).
  vm_compute. intros H. apply H. reflexivity.
Qed.

(** On [clip0] the first parse and the parse after the reopen both report
    [io.EOF]. *)
Lemma nextSample_retries_at_most_once_witness :
  (1 <= depth (nextSample true (looperOf clip0)) <= 2)%nat
  /\ depth (nextSample false (looperOf clip0)) = 1%nat
  /\ err (nextSample true (looperOf clip0)) = Some io_EOF
  /\ depth (nextSample true (looperOf clip0)) = 2%nat.
Proof.
  destruct (nextSample_retries_at_most_once true (looperOf clip0)) as (H1 & H2 & H3).
  split; [exact H1|]. split; [exact H2|].
  rewrite (H3 clip0_reader clip0_opened clip0_reader
              clip0_reader clip0_opened clip0_reader);
    [split; reflexivity | reflexivity ..].
Defined.

End LooperOnIVF.

(** ** The command on worked command lines *)

Section LoadTestOnCommands.
#[local] Existing Instance exact_float.
#[local] Existing Instance layout_names.
#[local] Existing Instance quiet_env.

Lemma fairproc_validation_witness :
  loadTest cmd_fairproc_bare
  = (callsBeforeTest cmd_fairproc_bare, Some errFairprocMissing)
  /\ exists params,
       loadTest cmd_fairproc_full
       = (callsBeforeTest cmd_fairproc_full ++ [NewLoadTest params; TestRun params],
          Run params).
Proof.
  split.
  - apply (fairproc_validation cmd_fairproc_bare localProject);
      [reflexivity | reflexivity | reflexivity |].
    left. reflexivity.
  - apply (fairproc_validation cmd_fairproc_full localProject);
      [reflexivity | reflexivity | reflexivity | ..]; cbv; discriminate.
Defined.

(** C3, the statement of the specification fails on the command line that
    requests coupled mode and gives exactly web width, web height, web
    bitrate and screen bitrate: none of the four is -1, and the command
    returns the configuration error (screen width and height are -1). *)
Lemma four_subparameters_are_not_enough :
  cmd_Bool cmd_fairproc_four "run-all" = false
  /\ cmd_Bool cmd_fairproc_four "fairproc-rooms" = true
  /\ snd (loadTest cmd_fairproc_four) = Some errFairprocMissing
  /\ ~ (snd (loadTest cmd_fairproc_four) = Some errFairprocMissing
        <-> (cmd_Int cmd_fairproc_four "fairproc-config-web-width" = -1
             \/ cmd_Int cmd_fairproc_four "fairproc-config-web-height" = -1
             \/ cmd_Int cmd_fairproc_four "fairproc-config-web-bitrate" = -1
             \/ cmd_Int cmd_fairproc_four "fairproc-config-screen-bitrate" = -1)).
Proof.
  split; [reflexivity|]. split; [reflexivity|]. split; [reflexivity|].
  intros [H _]. specialize (H eq_refl).
  cbv in H. intuition discriminate.
Qed.

(** The command line asks for 7 video and 9 audio publishers. *)
Lemma fairproc_fixes_publishers_witness :
  cmd_Int cmd_fairproc_full "video-publishers" = 7
  /\ cmd_Int cmd_fairproc_full "audio-publishers" = 9
  /\ exists params,
       loadTest cmd_fairproc_full
       = (callsBeforeTest cmd_fairproc_full ++ [NewLoadTest params; TestRun params],
          Run params)
       /\ AudioPublishers params = 2
       /\ VideoPublishers params = 3
       /\ Subscribers params = cmd_Int cmd_fairproc_full "subscribers".
Proof.
  split; [reflexivity|]. split; [reflexivity|].
  apply (fairproc_fixes_publishers cmd_fairproc_full localProject); reflexivity.
Defined.

Lemma rejected_configuration_starts_nothing_witness :
  fairprocMissing (paramsOf cmd_fairproc_bare localProject) = true
  /\ snd (loadTest cmd_fairproc_bare) = Some errFairprocMissing
  /\ fst (loadTest cmd_fairproc_bare) = callsBeforeTest cmd_fairproc_bare
  /\ forall ev, In ev (fst (loadTest cmd_fairproc_bare)) -> touchesLoadTest ev = false.
Proof.
  split; [reflexivity|].
  apply (rejected_configuration_starts_nothing cmd_fairproc_bare localProject);
    reflexivity.
Defined.

(** [--run-all --fairproc-rooms] with and without the three counts *)
Lemma suite_mode_ignores_counts_and_validation_witness :
  (exists params,
      loadTest cmd_suite_fairproc
      = (callsBeforeTest cmd_suite_fairproc
           ++ [NewLoadTest params; TestRunSuite params], RunSuite params)
      /\ VideoPublishers params = 0 /\ AudioPublishers params = 0
      /\ Subscribers params = 0
      /\ IsFairproc params = cmd_Bool cmd_suite_fairproc "fairproc-rooms")
  /\ loadTest (lk_load_test [("run-all"%string, BoolValue true);
                             ("fairproc-rooms"%string, BoolValue true)])
     = loadTest cmd_suite_fairproc.
Proof.
  destruct (suite_mode_ignores_counts_and_validation (E := quiet_env)
              cmd_suite_fairproc localProject eq_refl eq_refl) as (H1 & H2).
  split; [exact H1|].
  apply H2; [|reflexivity].
  intros n Hn. unfold flagOf, cmd_suite_fairproc, lk_load_test.
  cbn [given Flags lookupGiven].
  destruct (String.eqb "run-all" n); [reflexivity|].
  destruct (String.eqb "fairproc-rooms" n); [reflexivity|].
  destruct (String.eqb_spec "video-publishers" n) as [<-|_];
    [exfalso; apply Hn; cbn; auto|].
  destruct (String.eqb_spec "audio-publishers" n) as [<-|_];
    [exfalso; apply Hn; cbn; auto|].
  destruct (String.eqb_spec "subscribers" n) as [<-|_];
    [exfalso; apply Hn; cbn; auto|].
  reflexivity.
Defined.

(** No [duration] flag gives 15 seconds; [--duration 1m] is kept. *)
Lemma suite_mode_default_duration_witness :
  (exists params,
      loadTest cmd_suite_fairproc
      = (callsBeforeTest cmd_suite_fairproc
           ++ [NewLoadTest params; TestRunSuite params], RunSuite params)
      /\ PDuration params = 15000000000)
  /\ (exists params,
      loadTest cmd_suite_minute
      = (callsBeforeTest cmd_suite_minute
           ++ [NewLoadTest params; TestRunSuite params], RunSuite params)
      /\ PDuration params = 60000000000).
Proof.
  split.
  - apply (suite_mode_default_duration cmd_suite_fairproc localProject); reflexivity.
  - apply (suite_mode_default_duration cmd_suite_minute localProject); reflexivity.
Defined.

End LoadTestOnCommands.

(** * Further properties of the looper *)

Section LooperFurther.
Context {F : Float64Ops} {R : IVFReaderAPI}.

Lemma pulls_shift n l : pulls (S n) l = pulls n (self (NextSample l)).
Proof.
  induction n as [|n IH]; [reflexivity|].
  change (pulls (S (S n)) l) with (self (NextSample (pulls (S n) l))).
  rewrite IH. reflexivity.
Qed.

Lemma pull_shift i l : pull (S i) l = pull i (self (NextSample l)).
Proof. unfold pull. rewrite pulls_shift. reflexivity. Qed.

Lemma openIfNil_lastTimestamp l r l1 :
  openIfNil l = Ok (r, l1) -> lastTimestamp l1 = lastTimestamp l.
Proof.
  unfold openIfNil. destruct (reader l) as [r0|].
  - intros H. inversion H; subst. reflexivity.
  - destruct (NewWith (buffer l)) as [[r0 h]|e]; [|discriminate].
    intros H. inversion H; subst. reflexivity.
Qed.

(** The frame duration is the second divided by a positive frame rate,
    rounded down: [fps] frames never last more than a second, and fall short
    of it by less than [fps] nanoseconds. *)
Theorem frameDuration_fills_a_second input sp vp9 l :
  NewVPVideoLooper input sp vp9 = Returns (Ok l) ->
  0 < fps sp ->
  0 <= frameDuration l
  /\ frameDuration l * fps sp <= 1000000000 < (frameDuration l + 1) * fps sp.
Proof.
  intros Hnew Hpos.
  destruct (NewVPVideoLooper_ok _ _ _ _ Hnew) as (_ & _ & _ & _ & Hfd & _).
  rewrite Hfd. unfold time_Second.
  rewrite Z.quot_div_nonneg by lia.
  pose proof (Z.div_pos 1000000000 (fps sp) ltac:(lia) Hpos) as H0.
  pose proof (Z.mul_div_le 1000000000 (fps sp) Hpos) as H1.
  pose proof (Z.mul_succ_div_gt 1000000000 (fps sp) Hpos) as H2.
  split; [exact H0|]. split; [lia|].
  unfold Z.succ in H2. lia.
Qed.

(** The codec a looper announces is fixed when it is built: [video/vp9] when
    [isVp9Encoding] was given, [video/vp8] otherwise, at clock rate 90000,
    and no number of pulls changes what [Codec] returns. *)
Theorem Codec_is_fixed_at_construction input sp vp9 l :
  NewVPVideoLooper input sp vp9 = Returns (Ok l) ->
  forall n : nat,
    Codec (pulls n l) = Codec l
    /\ MimeType (Codec (pulls n l))
       = (if vp9 then "video/vp9" else "video/vp8")%string
    /\ ClockRate (Codec (pulls n l)) = 90000.
Proof.
  intros Hnew n.
  destruct (NewVPVideoLooper_ok _ _ _ _ Hnew) as (_ & _ & _ & _ & _ & _ & Hvp9).
  destruct (pulls_sameClip n l) as (_ & _ & _ & Hsame).
  unfold Codec. rewrite Hsame, Hvp9.
  destruct vp9; repeat split.
Qed.

(** A call of [nextSample] that returns an error returns the zero sample
    with it and leaves the last-seen timestamp as it was. *)
Theorem failed_pull_keeps_timestamp rewindEOF l :
  err (nextSample rewindEOF l) <> None ->
  sample (nextSample rewindEOF l) = Sample_zero
  /\ lastTimestamp (self (nextSample rewindEOF l)) = lastTimestamp l.
Proof.
  funelim (nextSample rewindEOF l);
    cbn [err sample self failWith deliver nested lastTimestamp set_reader];
    try match goal with
        | H : openIfNil _ = Ok _ |- _ => apply openIfNil_lastTimestamp in H
        end.
  - intros _. split; reflexivity.
  - intros H. exfalso. apply H. reflexivity.
  - intros He.
    match goal with
    | IH : _ -> _ /\ _ |- _ => destruct (IH He) as (Hs & Ht)
    end.
    split; [exact Hs|]. rewrite Ht. cbn. assumption.
  - intros _. split; [reflexivity | assumption].
  - intros _. split; [reflexivity | assumption].
Qed.

(** When the reader rejects the buffer, every pull returns that error (also
    when it is [io.EOF]: there is no retry), with the zero sample and in one
    activation, and the looper stays as it was. *)
Theorem unopenable_clip_fails_every_pull l e :
  reader l = None ->
  NewWith (buffer l) = Err e ->
  forall i : nat,
    pulls i l = l
    /\ sample (pull i l) = Sample_zero
    /\ err (pull i l) = Some e
    /\ depth (pull i l) = 1%nat.
Proof.
  intros Hr Hnew.
  assert (Hopen : openIfNil l = Err e).
  { unfold openIfNil. rewrite Hr, Hnew. reflexivity. }
  assert (Hpull : NextSample l = failWith l e)
    by (apply nextSample_open_error; exact Hopen).
  assert (Hpulls : forall i, pulls i l = l).
  { induction i as [|i IH]; [reflexivity|].
    cbn [pulls]. rewrite IH, Hpull. reflexivity. }
  intros i. unfold pull. rewrite (Hpulls i), Hpull. repeat split.
Qed.

Lemma reads_then_fails_pulls r fs e r' :
  ReadsThenFails r fs e r' ->
  is_EOF e = false ->
  forall l l1,
    openIfNil l = Ok (r, l1) ->
    (forall i, (i < List.length fs)%nat ->
       err (pull i l) = None
       /\ exists header, nth_error fs i = Some (Data (sample (pull i l)), header))
    /\ err (pull (List.length fs) l) = Some e
    /\ sample (pull (List.length fs) l) = Sample_zero
    /\ depth (pull (List.length fs) l) = 1%nat
    /\ reader (pulls (S (List.length fs)) l) = Some r'.
Proof.
  intros Hreads Hne.
  induction Hreads as [r e r' Hparse | r r1 frame header fs e r' Hparse Hreads IH];
    intros l l1 Hopen.
  - assert (Hp : NextSample l = failWith (set_reader l1 (Some r')) e).
    { apply (nextSample_parse_error true l r l1 e r' Hopen Hparse).
      rewrite Hne. reflexivity. }
    split; [intros i Hi; cbn in Hi; lia|].
    cbn [List.length pulls]. unfold pull. cbn [pulls]. rewrite Hp.
    repeat split.
  - assert (Hp : NextSample l = deliver (set_reader l1 (Some r1)) frame header)
      by (apply (nextSample_frame true l r l1 frame header r1 Hopen Hparse)).
    specialize (IH Hne (self (NextSample l)) (self (NextSample l))).
    assert (Hopen' : openIfNil (self (NextSample l)) = Ok (r1, self (NextSample l))).
    { rewrite Hp. reflexivity. }
    destruct (IH Hopen') as (Hframes & He & Hs & Hd & Hr).
    cbn [List.length]. split.
    + intros [|i] Hi.
      * unfold pull. cbn [pulls]. rewrite Hp. split; [reflexivity|].
        exists header. reflexivity.
      * rewrite pull_shift. cbn [nth_error]. apply Hframes. lia.
    + rewrite pull_shift, pulls_shift. auto.
Qed.

(** A parse error other than [io.EOF] in the middle of a clip is not looped
    past: the frames before it are returned in order, the pull that meets the
    error returns it with the zero sample, without reopening the clip, and
    the looper keeps the reader where the error left it. *)
Theorem midstream_error_is_returned l r0 h fs e r' :
  reader l = None ->
  NewWith (buffer l) = Ok (r0, h) ->
  ReadsThenFails r0 fs e r' ->
  is_EOF e = false ->
  (forall i, (i < List.length fs)%nat ->
     err (pull i l) = None
     /\ exists header, nth_error fs i = Some (Data (sample (pull i l)), header))
  /\ err (pull (List.length fs) l) = Some e
  /\ sample (pull (List.length fs) l) = Sample_zero
  /\ depth (pull (List.length fs) l) = 1%nat
  /\ reader (pulls (S (List.length fs)) l) = Some r'.
Proof.
  intros Hr Hnew Hreads Hne.
  apply (reads_then_fails_pulls r0 fs e r' Hreads Hne l
           (set_ivfTimebase (set_reader l (Some r0)) (timebaseOf h))).
  unfold openIfNil. rewrite Hr, Hnew. reflexivity.
Qed.

Lemma NextSample_step_depth l h fs j :
  ClipOf (buffer l) h fs ->
  JustReturned h fs j l ->
  depth (NextSample l)
  = (if (S j mod List.length fs =? 0)%nat then 2 else 1)%nat.
Proof.
  intros Hclip (r & before & x & rest & Hfs & Hlen & Hr & Hreads & _).
  assert (Hk : List.length fs = (List.length before + S (List.length rest))%nat).
  { rewrite Hfs, length_app. reflexivity. }
  assert (Hopen : openIfNil l = Ok (r, l)).
  { unfold openIfNil. rewrite Hr. reflexivity. }
  inversion Hreads as [? r1 Hparse|? r1 frame header rest' Hparse Hrest]; subst rest.
  - assert (Hj : (S j mod List.length fs = 0)%nat).
    { rewrite Hk, <- Hlen. cbn [List.length].
      replace (List.length before + 1)%nat with (S (List.length before)) by lia.
      apply Nat.Div0.mod_same. }
    unfold NextSample. rewrite (nextSample_rewind l _ _ _ Hopen Hparse), Hj.
    cbn [depth nested]. rewrite nextSample_false_depth. reflexivity.
  - assert (Hj : (S j mod List.length fs = S j)%nat).
    { apply Nat.mod_small. rewrite Hk, <- Hlen. cbn. lia. }
    unfold NextSample. rewrite (nextSample_frame true l _ _ _ _ _ Hopen Hparse), Hj.
    reflexivity.
Qed.

(** On a clip of [k >= 1] frames the looper reopens the clip exactly on the
    pulls whose number is a positive multiple of [k]; every other pull is
    served by the reader already held (or, for the first, by opening once). *)
Theorem looper_reopens_only_after_last_frame bytes sp vp9 l h fs :
  NewVPVideoLooper (Ok bytes) sp vp9 = Returns (Ok l) ->
  ClipOf bytes h fs ->
  (1 <= List.length fs)%nat ->
  forall i : nat,
    depth (pull i l)
    = (if (0 <? i)%nat && (i mod List.length fs =? 0)%nat then 2 else 1)%nat.
Proof.
  intros Hnew Hclip Hk i.
  destruct (NewVPVideoLooper_ok _ _ _ _ Hnew) as (Hin & Hr & _).
  inversion Hin; subst bytes.
  assert (Hne : fs <> []) by (destruct fs; [cbn in Hk; lia | discriminate]).
  destruct i as [|i].
  - destruct fs as [|x rest]; [congruence|].
    destruct (nextSample_fresh true l h x rest Hr Hclip) as (_ & _ & Hd & _).
    exact Hd.
  - destruct (pulls_cycle l h fs Hr Hclip Hne i) as (_ & _ & Hinv).
    assert (Hclip' : ClipOf (buffer (pulls (S i) l)) h fs).
    { destruct (pulls_sameClip (S i) l) as (Hb & _). rewrite Hb. exact Hclip. }
    unfold pull. rewrite (NextSample_step_depth _ h fs _ Hclip' Hinv).
    replace (S (i mod List.length fs) mod List.length fs)%nat
      with (S i mod List.length fs)%nat; [reflexivity|].
    replace (S (i mod List.length fs)) with (i mod List.length fs + 1)%nat by lia.
    rewrite Nat.Div0.add_mod_idemp_l. f_equal. lia.
Qed.

End LooperFurther.

(** * Further properties of the load-test command *)

Section LoadTestFurther.
Context {F : Float64Ops} {LA : LayoutAPI} {E : LoadTestEnv}.

(** Whatever the command line, [loadTest] ends in one of four ways: the
    project cannot be resolved and its error is returned after that one call;
    the coupled-mode check rejects the configuration; one load test is
    constructed and run; or, in suite mode, one load test is constructed and
    its suite is run.  So it constructs at most one load test, runs what it
    constructs exactly once with the parameters it was constructed with, and
    returns what that run returns. *)
Theorem loadTest_outcomes cmd :
  (exists e,
      loadProjectDetails cmd = Err e
      /\ loadTest cmd = ([LoadProjectDetails], Some e))
  \/ (cmd_Bool cmd "run-all" = false
      /\ loadTest cmd = (callsBeforeTest cmd, Some errFairprocMissing))
  \/ (exists params,
         cmd_Bool cmd "run-all" = false
         /\ loadTest cmd
            = (callsBeforeTest cmd ++ [NewLoadTest params; TestRun params],
               Run params))
  \/ (exists params,
         cmd_Bool cmd "run-all" = true
         /\ loadTest cmd
            = (callsBeforeTest cmd ++ [NewLoadTest params; TestRunSuite params],
               RunSuite params)).
Proof.
  unfold loadTest. fold (callsBeforeTest cmd).
  destruct (loadProjectDetails cmd) as [pc|e].
  - right. destruct (cmd_Bool cmd "run-all") eqn:Hall.
    + right. right. eexists. split; reflexivity.
    + cbn [IsFairproc set_Subscribers set_AudioPublishers set_VideoPublishers].
      destruct (IsFairproc (paramsOf cmd pc)).
      * match goal with
        | |- context [if fairprocMissing ?p then _ else _] =>
            destruct (fairprocMissing p)
        end.
        -- left. split; reflexivity.
        -- right. left. eexists. split; reflexivity.
      * right. left. eexists. split; reflexivity.
  - left. exists e. split; reflexivity.
Qed.

(** Outside suite mode and without coupled mode the load test is run with
    the three counts and the duration of the flags as they are (a zero
    duration stays zero), and the coupled-mode sub-parameters are passed on
    without any check. *)
Theorem plain_run_takes_counts_from_flags cmd pc :
  loadProjectDetails cmd = Ok pc ->
  cmd_Bool cmd "run-all" = false ->
  cmd_Bool cmd "fairproc-rooms" = false ->
  exists params,
    loadTest cmd
    = (callsBeforeTest cmd ++ [NewLoadTest params; TestRun params], Run params)
    /\ VideoPublishers params = cmd_Int cmd "video-publishers"
    /\ AudioPublishers params = cmd_Int cmd "audio-publishers"
    /\ Subscribers params = cmd_Int cmd "subscribers"
    /\ PDuration params = cmd_Duration cmd "duration"
    /\ FairprocConfigWebWidth params = cmd_Int cmd "fairproc-config-web-width"
    /\ FairprocConfigScreenBitrate params
       = cmd_Int cmd "fairproc-config-screen-bitrate".
Proof.
  intros Hpc Hall Hfair. unfold loadTest. rewrite Hpc, Hall.
  cbn [IsFairproc set_Subscribers set_AudioPublishers set_VideoPublishers paramsOf].
  rewrite Hfair. eexists. split; [reflexivity|]. repeat split.
Qed.

Lemma readFlags_agree (cmd cmd' : Command) :
  (forall n, In n readFlags -> flagOf cmd' n = flagOf cmd n) ->
  forall name, In name readFlags ->
    cmd_Int cmd' name = cmd_Int cmd name
    /\ cmd_String cmd' name = cmd_String cmd name
    /\ cmd_Bool cmd' name = cmd_Bool cmd name
    /\ cmd_Duration cmd' name = cmd_Duration cmd name
    /\ cmd_Float cmd' name = cmd_Float cmd name.
Proof.
  intros Hagree name Hn.
  unfold cmd_Int, cmd_String, cmd_Bool, cmd_Duration, cmd_Float.
  rewrite (Hagree name Hn). repeat split.
Qed.

Ltac is_read_flag := cbn; repeat (first [left; reflexivity | right]).

(** [loadTest] depends on the command line through the flags of [readFlags]
    only.  [room-count], which the command declares, is not among them: the
    number of rooms asked for changes neither the calls made nor the
    parameters of the load test. *)
Theorem loadTest_depends_on_read_flags_only :
  ~ In "room-count"%string readFlags
  /\ forall cmd cmd',
       (forall n, In n readFlags -> flagOf cmd' n = flagOf cmd n) ->
       loadProjectDetails cmd' = loadProjectDetails cmd ->
       loadTest cmd' = loadTest cmd.
Proof.
  split; [cbn; intuition discriminate|].
  intros cmd cmd' Hagree Hpd.
  pose proof (readFlags_agree cmd cmd' Hagree) as Hfl.
  unfold loadTest. rewrite Hpd.
  destruct (loadProjectDetails cmd) as [pc|e]; [|reflexivity].
  unfold paramsOf.
  repeat match goal with
         | |- context [cmd_Int cmd' ?n] =>
             replace (cmd_Int cmd' n) with (cmd_Int cmd n)
               by (symmetry; apply Hfl; is_read_flag)
         | |- context [cmd_String cmd' ?n] =>
             replace (cmd_String cmd' n) with (cmd_String cmd n)
               by (symmetry; apply Hfl; is_read_flag)
         | |- context [cmd_Bool cmd' ?n] =>
             replace (cmd_Bool cmd' n) with (cmd_Bool cmd n)
               by (symmetry; apply Hfl; is_read_flag)
         | |- context [cmd_Duration cmd' ?n] =>
             replace (cmd_Duration cmd' n) with (cmd_Duration cmd n)
               by (symmetry; apply Hfl; is_read_flag)
         | |- context [cmd_Float cmd' ?n] =>
             replace (cmd_Float cmd' n) with (cmd_Float cmd n)
               by (symmetry; apply Hfl; is_read_flag)
         end.
  reflexivity.
Qed.

Lemma fairprocMissing_spec cmd pc :
  fairprocMissing (paramsOf cmd pc) = true
  <-> (cmd_Int cmd "fairproc-config-audio-bitrate" = -1
       \/ cmd_Int cmd "fairproc-config-screen-height" = -1
       \/ cmd_Int cmd "fairproc-config-screen-width" = -1
       \/ cmd_Int cmd "fairproc-config-web-bitrate" = -1
       \/ cmd_Int cmd "fairproc-config-web-height" = -1
       \/ cmd_Int cmd "fairproc-config-web-width" = -1).
Proof.
  unfold fairprocMissing. cbn.
  repeat rewrite orb_true_iff. repeat rewrite Z.eqb_eq. tauto.
Qed.

(** On the [load-test] command, web width, web height, web bitrate, screen
    width and screen height default to -1: outside suite mode a request for
    coupled mode that leaves one of them off the command line is rejected. *)
Theorem fairproc_needs_explicit_subparameters args name pc :
  In name fairprocUnsetByDefault ->
  lookupGiven name args = None ->
  loadProjectDetails (loadTestCommand args) = Ok pc ->
  cmd_Bool (loadTestCommand args) "run-all" = false ->
  cmd_Bool (loadTestCommand args) "fairproc-rooms" = true ->
  loadTest (loadTestCommand args)
  = (callsBeforeTest (loadTestCommand args), Some errFairprocMissing).
Proof.
  intros Hname Hnone Hpc Hall Hfair.
  assert (Hunset : cmd_Int (loadTestCommand args) name = -1).
  { unfold cmd_Int, flagOf. cbn [given loadTestCommand Flags]. rewrite Hnone.
    cbn in Hname.
    repeat (destruct Hname as [<-|Hname]; [reflexivity|]). contradiction. }
  pose proof (loadTest_fairproc _ pc Hpc Hall Hfair) as H. cbn zeta in H.
  rewrite H.
  replace (fairprocMissing (paramsOf (loadTestCommand args) pc)) with true;
    [reflexivity|].
  symmetry. apply (fairprocMissing_spec _ pc).
  cbn in Hname.
  repeat (destruct Hname as [<-|Hname];
          [repeat (first [left; exact Hunset | right]); exact Hunset|]).
  contradiction.
Qed.

(** Outside suite mode, with coupled mode requested, the command returns
    the configuration error exactly when audio bitrate, screen height, screen
    width, web bitrate, web height or web width is -1.  The screen bitrate
    is not tested: when the check passes its value, whatever it is, is
    handed to the load test. *)
Theorem fairproc_check_is_on_six_fields cmd pc :
  loadProjectDetails cmd = Ok pc ->
  cmd_Bool cmd "run-all" = false ->
  cmd_Bool cmd "fairproc-rooms" = true ->
  (snd (loadTest cmd) = Some errFairprocMissing
   /\ fst (loadTest cmd) = callsBeforeTest cmd
   <-> (cmd_Int cmd "fairproc-config-audio-bitrate" = -1
        \/ cmd_Int cmd "fairproc-config-screen-height" = -1
        \/ cmd_Int cmd "fairproc-config-screen-width" = -1
        \/ cmd_Int cmd "fairproc-config-web-bitrate" = -1
        \/ cmd_Int cmd "fairproc-config-web-height" = -1
        \/ cmd_Int cmd "fairproc-config-web-width" = -1))
  /\ (fairprocMissing (paramsOf cmd pc) = false ->
      exists params,
        loadTest cmd
        = (callsBeforeTest cmd ++ [NewLoadTest params; TestRun params], Run params)
        /\ FairprocConfigScreenBitrate params
           = cmd_Int cmd "fairproc-config-screen-bitrate").
Proof.
  intros Hpc Hall Hfair.
  pose proof (loadTest_fairproc cmd pc Hpc Hall Hfair) as H. cbn zeta in H.
  rewrite <- (fairprocMissing_spec cmd pc). split.
  - rewrite H. destruct (fairprocMissing (paramsOf cmd pc)); cbn [fst snd].
    + split; intros _; [reflexivity | split; reflexivity].
    + split; [|discriminate]. intros [_ Hcalls]. exfalso.
      apply (f_equal (@List.length event)) in Hcalls.
      rewrite length_app in Hcalls. cbn in Hcalls. lia.
  - intros Hok. rewrite H, Hok. eexists. split; reflexivity.
Qed.

End LoadTestFurther.

(** ** The further properties on the worked clips and command lines *)

Section FurtherOnIVF.
#[local] Existing Instance exact_float.
#[local] Existing Instance ivf_reader.

Lemma clip2_truncated_reads :
  ReadsThenFails clip2_truncated_reader clip2_frames errIncompleteFrameHeader
                 clip2_truncated_end.
Proof.
  eapply fails_later; [cbv; reflexivity|].
  eapply fails_later; [cbv; reflexivity|].
  apply fails_now. cbv. reflexivity.
Defined.

(** Thirty frames of 33333333 ns are 10 ns short of a second. *)
Lemma frameDuration_fills_a_second_witness :
  0 < fps spec30
  /\ 0 <= frameDuration (looperOf clip2)
  /\ frameDuration (looperOf clip2) * 30 <= 1000000000
     < (frameDuration (looperOf clip2) + 1) * 30.
Proof.
  split; [reflexivity|].
  apply (frameDuration_fills_a_second (Ok clip2) spec30 false (looperOf clip2)).
  - reflexivity.
  - reflexivity.
Defined.

Lemma Codec_is_fixed_at_construction_witness :
  Codec (pulls 3 (looperOf clip2)) = Codec (looperOf clip2)
  /\ MimeType (Codec (pulls 3 (looperOf clip2))) = "video/vp8"%string
  /\ ClockRate (Codec (pulls 3 (looperOf clip2))) = 90000.
Proof.
  apply (Codec_is_fixed_at_construction (Ok clip2) spec30 false (looperOf clip2)).
  reflexivity.
Defined.

(** After the two frames of [clip2_truncated] the looper holds timestamp 1;
    the failing third pull leaves it there. *)
Lemma failed_pull_keeps_timestamp_witness :
  lastTimestamp (pulls 2 (looperOf clip2_truncated)) = 1
  /\ err (nextSample true (pulls 2 (looperOf clip2_truncated)))
     = Some errIncompleteFrameHeader
  /\ sample (nextSample true (pulls 2 (looperOf clip2_truncated))) = Sample_zero
  /\ lastTimestamp (self (nextSample true (pulls 2 (looperOf clip2_truncated))))
     = lastTimestamp (pulls 2 (looperOf clip2_truncated)).
Proof.
  split; [vm_compute; reflexivity|]. split; [vm_compute; reflexivity|].
  apply (failed_pull_keeps_timestamp true (pulls 2 (looperOf clip2_truncated))).
  vm_compute. discriminate.
Defined.

Lemma unopenable_clip_fails_every_pull_witness :
  NewWith clip_badsig = Err errSignatureMismatch
  /\ pulls 3 (looperOf clip_badsig) = looperOf clip_badsig
  /\ sample (pull 3 (looperOf clip_badsig)) = Sample_zero
  /\ err (pull 3 (looperOf clip_badsig)) = Some errSignatureMismatch
  /\ depth (pull 3 (looperOf clip_badsig)) = 1%nat.
Proof.
  split; [reflexivity|].
  apply (unopenable_clip_fails_every_pull (looperOf clip_badsig) errSignatureMismatch).
  - reflexivity.
  - reflexivity.
Defined.

Lemma midstream_error_is_returned_witness :
  (forall i, (i < 2)%nat ->
     err (pull i (looperOf clip2_truncated)) = None
     /\ exists header,
          nth_error clip2_frames i
          = Some (Data (sample (pull i (looperOf clip2_truncated))), header))
  /\ err (pull 2 (looperOf clip2_truncated)) = Some errIncompleteFrameHeader
  /\ sample (pull 2 (looperOf clip2_truncated)) = Sample_zero
  /\ depth (pull 2 (looperOf clip2_truncated)) = 1%nat
  /\ reader (pulls 3 (looperOf clip2_truncated)) = Some clip2_truncated_end.
Proof.
  apply (midstream_error_is_returned (looperOf clip2_truncated)
           clip2_truncated_reader clip2_header clip2_frames
           errIncompleteFrameHeader clip2_truncated_end).
  - reflexivity.
  - reflexivity.
  - exact clip2_truncated_reads.
  - reflexivity.
Defined.

(** On the two-frame clip pull 3 is served by the held reader and pull 4
    reopens the clip. *)
Lemma looper_reopens_only_after_last_frame_witness :
  depth (pull 3 (looperOf clip2)) = 1%nat
  /\ depth (pull 4 (looperOf clip2)) = 2%nat.
Proof.
  split.
  - apply (looper_reopens_only_after_last_frame clip2 spec30 false (looperOf clip2)
             clip2_header clip2_frames (looperOf_is_new clip2) clip2_is_clip
             ltac:(cbn; lia) 3%nat).
  - apply (looper_reopens_only_after_last_frame clip2 spec30 false (looperOf clip2)
             clip2_header clip2_frames (looperOf_is_new clip2) clip2_is_clip
             ltac:(cbn; lia) 4%nat).
Defined.

End FurtherOnIVF.

Section FurtherOnCommands.
#[local] Existing Instance exact_float.
#[local] Existing Instance layout_names.
#[local] Existing Instance quiet_env.

Lemma plain_run_takes_counts_from_flags_witness :
  exists params,
    loadTest cmd_plain
    = (callsBeforeTest cmd_plain ++ [NewLoadTest params; TestRun params], Run params)
    /\ VideoPublishers params = 3
    /\ AudioPublishers params = 0
    /\ Subscribers params = 2
    /\ PDuration params = 0
    /\ FairprocConfigWebWidth params = -1
    /\ FairprocConfigScreenBitrate params = -1.
Proof.
  apply (plain_run_takes_counts_from_flags (E := quiet_env) cmd_plain localProject);
    reflexivity.
Defined.

(** [--room-count 5] and [--room-count 9] *)
Lemma loadTest_depends_on_read_flags_only_witness :
  loadTest (lk_load_test [ ("video-publishers"%string, IntValue 3);
                           ("subscribers"%string, IntValue 2);
                           ("room-count"%string, IntValue 9) ])
  = loadTest cmd_plain.
Proof.
  apply (proj2 (loadTest_depends_on_read_flags_only (E := quiet_env))).
  - intros n Hn. cbn in Hn.
    repeat (destruct Hn as [<-|Hn]; [reflexivity|]). contradiction.
  - reflexivity.
Defined.

(** The command line of [cmd_fairproc_four] gives no screen width. *)
Lemma fairproc_needs_explicit_subparameters_witness :
  lookupGiven "fairproc-config-screen-width" (given cmd_fairproc_four) = None
  /\ loadTest (loadTestCommand (given cmd_fairproc_four))
     = (callsBeforeTest (loadTestCommand (given cmd_fairproc_four)),
        Some errFairprocMissing).
Proof.
  split; [reflexivity|].
  apply (fairproc_needs_explicit_subparameters (E := quiet_env)
           (given cmd_fairproc_four) "fairproc-config-screen-width" localProject).
  - cbn. auto.
  - reflexivity.
  - reflexivity.
  - reflexivity.
  - reflexivity.
Defined.

(** With only the screen bitrate left off the command line the load test
    is run, with a screen bitrate of -1. *)
Lemma fairproc_check_is_on_six_fields_witness :
  cmd_Int cmd_fairproc_no_screen_bitrate "fairproc-config-screen-bitrate" = -1
  /\ (exists params,
        loadTest cmd_fairproc_no_screen_bitrate
        = (callsBeforeTest cmd_fairproc_no_screen_bitrate
             ++ [NewLoadTest params; TestRun params], Run params)
        /\ FairprocConfigScreenBitrate params = -1)
  /\ snd (loadTest cmd_fairproc_bare) = Some errFairprocMissing.
Proof.
  split; [reflexivity|]. split.
  - apply (proj2 (fairproc_check_is_on_six_fields (E := quiet_env)
                    cmd_fairproc_no_screen_bitrate localProject
                    eq_refl eq_refl eq_refl)).
    reflexivity.
  - apply (proj2 (proj1 (fairproc_check_is_on_six_fields (E := quiet_env)
                           cmd_fairproc_bare localProject
                           eq_refl eq_refl eq_refl))).
    right. left. reflexivity.
Defined.

End FurtherOnCommands.
